(** * asyncio_redis.connection: the reconnecting [Connection] wrapper

    A shallow embedding of [src/asyncio_redis/connection.py].

    - Python numbers are [pynum]: an [int] is a [Z], a [float] is a binary64
      value (Rocq's primitive [float], specified by [SpecFloat]).
    - Exceptions are values of [exn]; fallible code returns [result].
    - The coroutine [_reconnect] is run against a script of outcomes of the
      awaited connection attempts and records what it asks of the event loop
      in a trace of [event]s.
    - The protocol object ([RedisProtocol], [protocol.py]) and the registry
      [_all_commands] are collaborators that this file does not own. *)

From Stdlib Require Import ZArith QArith Qpower Qminmax Floats Ascii Lia.
From stdpp Require Import base option list gmap strings pretty.

Local Open Scope Z_scope.

(** ** Exceptions and results *)

(** An exception, by its class.  The builtin classes the code can meet are
    named: first [OSError] and every builtin class derived from it, then
    four that are not derived from it.  An exception of any other class is
    [OtherException cls bases]: the name of its class and the names of the
    classes it inherits from, directly or not (the rest of its [__mro__]).
    So [socket.gaierror] is
    [OtherException "gaierror" ["OSError"; "Exception"; "BaseException"; "object"]]
    and [KeyError] is
    [OtherException "KeyError" ["LookupError"; "Exception"; "BaseException"; "object"]]. *)
Inductive exn :=
| OSError
| BlockingIOError
| ChildProcessError
| ConnectionError
| BrokenPipeError
| ConnectionAbortedError
| ConnectionRefusedError
| ConnectionResetError
| FileExistsError
| FileNotFoundError
| InterruptedError
| IsADirectoryError
| NotADirectoryError
| PermissionError
| ProcessLookupError
| TimeoutError
| AttributeError
| OverflowError
| ValueError
| TypeError
| OtherException (cls : string) (bases : list string).

(** [isinstance(e, OSError)]: what the clause [except OSError] matches, the
    class [OSError] and every class that has it in its [__mro__]. *)
Definition isinstance_OSError (e : exn) : bool :=
  match e with
  | OSError | BlockingIOError | ChildProcessError | ConnectionError
  | BrokenPipeError | ConnectionAbortedError | ConnectionRefusedError
  | ConnectionResetError | FileExistsError | FileNotFoundError
  | InterruptedError | IsADirectoryError | NotADirectoryError
  | PermissionError | ProcessLookupError | TimeoutError => true
  | AttributeError | OverflowError | ValueError | TypeError => false
  | OtherException cls bases => bool_decide ("OSError" ∈ cls :: bases)
  end.

Inductive result (A : Type) :=
| Ok (a : A)
| Raise (e : exn).
Arguments Ok {A} a.
Arguments Raise {A} e.

#[export] Instance result_ret : MRet result := fun _ a => Ok a.
#[export] Instance result_bind : MBind result := fun _ _ f m =>
  match m with
  | Ok a => f a
  | Raise e => Raise e
  end.
#[export] Instance result_fmap : FMap result := fun _ _ f m =>
  match m with
  | Ok a => Ok (f a)
  | Raise e => Raise e
  end.

(** ** Python numbers *)

Inductive pynum :=
| PyInt (z : Z)
| PyFloat (f : float).

(** [float(z)] for an [int]: round to nearest, ties to even; an [int] beyond
    the binary64 range raises [OverflowError]. *)
Definition SF_of_int (z : Z) : spec_float := binary_normalize prec emax z 0 false.

Definition float_of_int (z : Z) : result float :=
  match SF_of_int z with
  | S754_infinity _ => Raise OverflowError
  | s => Ok (SF2Prim s)
  end.

(** Python compares an [int] with a [float] exactly, not after a rounding
    conversion.  [SF_compare_int x z] is that comparison ([None] for NaN). *)
Definition SF_compare_int (x : spec_float) (z : Z) : option comparison :=
  match x with
  | S754_nan => None
  | S754_infinity s => Some (if s then Lt else Gt)
  | S754_zero _ => Some (0 ?= z)
  | S754_finite s m e =>
      let v := cond_Zopp s (Zpos m) in
      Some (if 0 <=? e then v * 2 ^ e ?= z else v ?= z * 2 ^ (- e))
  end.

Definition float_compare_int (f : float) (z : Z) : option comparison :=
  SF_compare_int (Prim2SF f) z.

(** [a < b] *)
Definition py_lt (a b : pynum) : bool :=
  match a, b with
  | PyInt x, PyInt y => x <? y
  | PyFloat x, PyFloat y => PrimFloat.ltb x y
  | PyFloat x, PyInt y =>
      match float_compare_int x y with Some Lt => true | _ => false end
  | PyInt x, PyFloat y =>
      match float_compare_int y x with Some Gt => true | _ => false end
  end.

(** [a <= b] *)
Definition py_le (a b : pynum) : bool :=
  match a, b with
  | PyInt x, PyInt y => x <=? y
  | PyFloat x, PyFloat y => PrimFloat.leb x y
  | PyFloat x, PyInt y =>
      match float_compare_int x y with Some (Lt | Eq) => true | _ => false end
  | PyInt x, PyFloat y =>
      match float_compare_int y x with Some (Gt | Eq) => true | _ => false end
  end.

(** [a == b] *)
Definition py_eq (a b : pynum) : bool :=
  match a, b with
  | PyInt x, PyInt y => x =? y
  | PyFloat x, PyFloat y => PrimFloat.eqb x y
  | PyFloat x, PyInt y | PyInt y, PyFloat x =>
      match float_compare_int x y with Some Eq => true | _ => false end
  end.

(** [a * b]: a mixed product converts the [int] operand to [float] first. *)
Definition py_mul (a b : pynum) : result pynum :=
  match a, b with
  | PyInt x, PyInt y => Ok (PyInt (x * y))
  | PyFloat x, PyFloat y => Ok (PyFloat (x * y))
  | PyFloat x, PyInt y => y' ← float_of_int y; Ok (PyFloat (x * y'))
  | PyInt x, PyFloat y => x' ← float_of_int x; Ok (PyFloat (x' * y))
  end.

(** The builtin [min(a, b)]: [b] replaces [a] only when [b < a], so the
    first argument wins ties and wins against NaN. *)
Definition py_min (a b : pynum) : pynum :=
  if py_lt b a then b else a.

(** [int(x)] as the conversion behind ['%i' % x]: truncation towards zero;
    NaN raises [ValueError], an infinity raises [OverflowError]. *)
Definition int_of_pynum (x : pynum) : result Z :=
  match x with
  | PyInt z => Ok z
  | PyFloat f =>
      match Prim2SF f with
      | S754_nan => Raise ValueError
      | S754_infinity _ => Raise OverflowError
      | S754_zero _ => Ok 0
      | S754_finite s m e =>
          Ok (cond_Zopp s (if 0 <=? e then Zpos m * 2 ^ e else Zpos m / 2 ^ (- e)))
      end
  end.

(** ** Collaborators: transports, the event loop, the protocol object *)

(** A live transport and an event loop are opaque handles. *)
Definition transport := nat.
Definition event_loop := nat.

(** [asyncio.get_event_loop()] *)
Definition get_event_loop : event_loop := 0%nat.

(** [logging.INFO] *)
Definition INFO : Z := 20.

(** The closure [connection_lost] that [create] hands to the protocol
    object.  It closes over [auto_reconnect] (and over the connection being
    built, which is the one that owns the protocol object). *)
Inductive callback :=
| connection_lost_closure (auto_reconnect : bool).

Section Connection.

(** What a bound method of the protocol object is; the commands themselves
    belong to [protocol.py]. *)
Context {operation : Type}.

(** The registry [_all_commands] imported from [protocol.py]: a list of
    method names. *)
Variable _all_commands : list string.

(** Modelled from the spec: the class [RedisProtocol] of [protocol.py], the
    Protocol Handle.  It is built from the pass-through configuration and the
    transport-lost callback, is bound to at most one live transport, and has
    one operation per command name. *)
Record RedisProtocol := {
  password : option string;
  db : Z;
  encoder : option string;
  connection_lost_callback : callback;
  protocol_loop : event_loop;
  protocol_transport : option transport;
  operations : gmap string operation;
}.

(** Modelled from the spec: the bind operation of the Protocol Handle
    ([connection_made]), which the event loop calls with the transport it has
    just established. *)
Definition connection_made (p : RedisProtocol) (t : transport) : RedisProtocol :=
  {| password := password p; db := db p; encoder := encoder p;
     connection_lost_callback := connection_lost_callback p;
     protocol_loop := protocol_loop p;
     protocol_transport := Some t;
     operations := operations p |}.

(** Modelled from the spec: the Protocol Handle after its transport is gone. *)
Definition transport_closed (p : RedisProtocol) : RedisProtocol :=
  {| password := password p; db := db p; encoder := encoder p;
     connection_lost_callback := connection_lost_callback p;
     protocol_loop := protocol_loop p;
     protocol_transport := None;
     operations := operations p |}.

(** Modelled from the spec: [getattr(protocol, name)] for a method name; a
    name the object does not have raises [AttributeError]. *)
Definition getattr_protocol (p : RedisProtocol) (name : string) : result operation :=
  match operations p !! name with
  | Some op => Ok op
  | None => Raise AttributeError
  end.

(** ** The [Connection] object *)

Record Connection := {
  host : string;
  port : Z;
  unixsocket : option string;
  _loop : event_loop;
  _retry_interval : pynum;
  protocol : RedisProtocol;
}.

Definition set_retry_interval (self : Connection) (v : pynum) : Connection :=
  {| host := host self; port := port self; unixsocket := unixsocket self;
     _loop := _loop self; _retry_interval := v; protocol := protocol self |}.

Definition set_protocol (self : Connection) (p : RedisProtocol) : Connection :=
  {| host := host self; port := port self; unixsocket := unixsocket self;
     _loop := _loop self; _retry_interval := _retry_interval self; protocol := p |}.

(** The property [transport]. *)
Definition transport_of (self : Connection) : option transport :=
  protocol_transport (protocol self).

(** *** Backoff *)

Definition initial_interval : pynum := PyFloat 0.5.

Definition _get_retry_interval (self : Connection) : pynum :=
  _retry_interval self.

Definition _reset_retry_interval (self : Connection) : Connection :=
  set_retry_interval self (PyFloat 0.5).

Definition _increase_retry_interval (self : Connection) : result Connection :=
  y ← py_mul (PyFloat 1.5) (_retry_interval self);
  Ok (set_retry_interval self (py_min (PyInt 60) y)).

(** The value that line 79 assigns, as a function of the current one. *)
Definition next_interval (x : pynum) : result pynum :=
  y ← py_mul (PyFloat 1.5) x; Ok (py_min (PyInt 60) y).

(** [n] consecutive calls of [_increase_retry_interval]. *)
Fixpoint increase_times (n : nat) (self : Connection) : result Connection :=
  match n with
  | O => Ok self
  | S k => self' ← increase_times k self; _increase_retry_interval self'
  end.

(** The first twelve intervals of the backoff, [0.5 * 1.5 ^ k] for
    [k = 0 .. 11]; each of them is a binary64 value.  The thirteenth product
    passes the ceiling. *)
Definition backoff_schedule : list pynum :=
  [PyFloat 0.5; PyFloat 0.75; PyFloat 1.125; PyFloat 1.6875;
   PyFloat 2.53125; PyFloat 3.796875; PyFloat 5.6953125;
   PyFloat 8.54296875; PyFloat 12.814453125; PyFloat 19.2216796875;
   PyFloat 28.83251953125; PyFloat 43.248779296875].

(** The interval after [n] failures in a row. *)
Definition backoff_after (n : nat) : pynum :=
  nth n backoff_schedule (PyInt 60).

(** The values the code ever stores in [_retry_interval]: a [float], or the
    [int] literal [60] that [min] hands back. *)
Definition interval_value (x : pynum) : Prop :=
  match x with
  | PyInt z => z = 60
  | PyFloat _ => True
  end.

(** *** The reconnect loop *)

(** What [_reconnect] asks of its environment, in order. *)
Inductive event :=
| Log (level : Z) (msg : string)
| CreateConnection (h : string) (p : Z)
| CreateUnixConnection (path : string)
| Sleep (interval : pynum).

(** The intervals slept, in order. *)
Definition sleeps (tr : list event) : list pynum :=
  omap (fun ev => match ev with Sleep i => Some i | _ => None end) tr.

(** The connection requests, in order. *)
Definition connects (tr : list event) : list event :=
  omap (fun ev =>
          match ev with
          | CreateConnection _ _ | CreateUnixConnection _ => Some ev
          | _ => None
          end) tr.

(** How one awaited connection attempt ends. *)
Inductive attempt_result :=
| Established (t : transport)
| Failed (e : exn).

(** How far a run of a coroutine got: it returned, it raised, or it is still
    suspended on an await the script says nothing about. *)
Inductive outcome :=
| Returned
| Raised (e : exn)
| Pending.

Record run := {
  run_outcome : outcome;
  run_self : Connection;
  run_trace : list event;
  run_rest : list attempt_result;
}.

(** The call made by one attempt: lines 88-91. *)
Definition connect_request (self : Connection) : event :=
  match unixsocket self with
  | None => CreateConnection (host self) (port self)
  | Some path => CreateUnixConnection path
  end.

Definition attempt_prefix (self : Connection) : list event :=
  [Log INFO "Connecting to redis"; connect_request self].

(** The message of line 98. *)
Definition retry_message (secs : Z) : string :=
  "Connecting to redis failed. Retrying in " +:+ pretty secs +:+ " seconds".

(** The [except OSError] handler up to the [sleep]: the connection as the
    handler leaves it, and either what it logs and sleeps or, when the
    increase or the ['%i'] formatting raises, the exception. *)
Definition on_failure (self : Connection) : Connection * result (list event) :=
  match _increase_retry_interval self with
  | Raise e => (self, Raise e)
  | Ok self' =>
      let interval := _get_retry_interval self' in
      (self',
       secs ← int_of_pynum interval;
       Ok [Log INFO (retry_message secs); Sleep interval])
  end.

(** [_reconnect], run against the outcomes of the connection attempts it
    awaits.  Each iteration of [while True] consumes one outcome. *)
Fixpoint _reconnect (self : Connection) (script : list attempt_result) : run :=
  match script with
  | [] =>
      {| run_outcome := Pending; run_self := self;
         run_trace := attempt_prefix self; run_rest := [] |}
  | Established t :: rest =>
      {| run_outcome := Returned;
         run_self := _reset_retry_interval
                       (set_protocol self (connection_made (protocol self) t));
         run_trace := attempt_prefix self; run_rest := rest |}
  | Failed e :: rest =>
      if isinstance_OSError e then
        match on_failure self with
        | (self', Ok evs) =>
            let r := _reconnect self' rest in
            {| run_outcome := run_outcome r; run_self := run_self r;
               run_trace := attempt_prefix self ++ evs ++ run_trace r;
               run_rest := run_rest r |}
        | (self', Raise e') =>
            {| run_outcome := Raised e'; run_self := self';
               run_trace := attempt_prefix self; run_rest := rest |}
        end
      else
        {| run_outcome := Raised e; run_self := self;
           run_trace := attempt_prefix self; run_rest := rest |}
  end.

(** *** [create] *)

(** The classmethod [create].  [commands] stands for the methods of the class
    [RedisProtocol]; [script] gives the outcomes of the connection attempts
    awaited by the first [_reconnect].  On [Returned], the value returned to
    the caller is [run_self]. *)
Definition create (host : string) (port : Z) (password : option string)
    (db : Z) (encoder : option string) (auto_reconnect : bool)
    (unixsocket : option string) (loop : option event_loop)
    (commands : gmap string operation) (script : list attempt_result) : run :=
  let loop' := match loop with Some l => l | None => get_event_loop end in
  let connection :=
    {| host := host; port := port; unixsocket := unixsocket;
       _loop := loop'; _retry_interval := PyFloat 0.5;
       protocol :=
         {| password := password; db := db; encoder := encoder;
            connection_lost_callback := connection_lost_closure auto_reconnect;
            protocol_loop := loop';
            protocol_transport := None;
            operations := commands |} |} in
  _reconnect connection script.

(** *** Command forwarding *)

(** What [__getattr__] asks of the protocol object. *)
Inductive access :=
| ProtocolGetattr (name : string).

(** [name in _all_commands] *)
Definition is_command (name : string) : bool :=
  bool_decide (name ∈ _all_commands).

Definition __getattr__ (self : Connection) (name : string)
    : result operation * list access :=
  if negb (is_command name) then (Raise AttributeError, [])
  else (getattr_protocol (protocol self) name, [ProtocolGetattr name]).

(** *** Transport loss and the event loop *)

(** What [asyncio.async] hands to the loop. *)
Inductive task :=
| reconnect_task.

(** One connection on its event loop: the tasks scheduled and not yet run
    (oldest first), the outcomes of the connection attempts still to come,
    and what has been asked of the loop so far. *)
Record world := {
  manager : Connection;
  scheduled : list task;
  network : list attempt_result;
  history : list event;
}.

(** The body of the closure [connection_lost], lines 51-53. *)
Definition connection_lost (auto_reconnect : bool) (w : world) : world :=
  if auto_reconnect then
    {| manager := manager w; scheduled := scheduled w ++ [reconnect_task];
       network := network w; history := history w |}
  else w.

Definition call_callback (cb : callback) (w : world) : world :=
  match cb with
  | connection_lost_closure auto_reconnect => connection_lost auto_reconnect w
  end.

(** Modelled from the spec: the disconnection notification of the Protocol
    Handle.  The handle has no transport any more and invokes its
    transport-lost callback once. *)
Definition transport_lost (w : world) : world :=
  let p := transport_closed (protocol (manager w)) in
  call_callback (connection_lost_callback p)
    {| manager := set_protocol (manager w) p; scheduled := scheduled w;
       network := network w; history := history w |}.

(** The loop runs the oldest scheduled task.  A task whose awaited attempt
    has no outcome in [network] stays suspended and is not runnable again. *)
Definition loop_step (w : world) : world :=
  match scheduled w with
  | [] => w
  | reconnect_task :: ts =>
      let r := _reconnect (manager w) (network w) in
      {| manager := run_self r; scheduled := ts;
         network := run_rest r; history := history w ++ run_trace r |}
  end.

Fixpoint loop_steps (n : nat) (w : world) : world :=
  match n with
  | O => w
  | S k => loop_steps k (loop_step w)
  end.

End Connection.

Arguments RedisProtocol : clear implicits.
Arguments Connection : clear implicits.
Arguments run : clear implicits.
Arguments world : clear implicits.

(** ** [__repr__] *)

(** A [str] is modelled by a [string] whose characters are the code points
    below 256. *)
Definition squote : ascii := ascii_of_N 39.
Definition dquote : ascii := ascii_of_N 34.
Definition backslash : ascii := ascii_of_N 92.

(** [str.isprintable] for a code point below 256: the controls, the
    no-break space (160) and the soft hyphen (173) are not printable. *)
Definition isprintable (n : N) : bool :=
  ((32 <=? n) && (n <? 127) || (161 <=? n) && negb (n =? 173))%N.

Definition printable_char (ch : ascii) : bool := isprintable (N_of_ascii ch).

Definition hex_digit (n : N) : ascii :=
  match n with
  | 0 => "0" | 1 => "1" | 2 => "2" | 3 => "3" | 4 => "4" | 5 => "5"
  | 6 => "6" | 7 => "7" | 8 => "8" | 9 => "9" | 10 => "a" | 11 => "b"
  | 12 => "c" | 13 => "d" | 14 => "e" | _ => "f"
  end%N%char.

(** The escape [\xhh]. *)
Definition hex_escape (n : N) : string :=
  String backslash
    (String "x" (String (hex_digit (n / 16)) (String (hex_digit (n mod 16)) "")))%N.

Fixpoint string_contains (ch : ascii) (s : string) : bool :=
  match s with
  | EmptyString => false
  | String a s' => Ascii.eqb a ch || string_contains ch s'
  end.

(** The quote [repr] puts around a [str]: a double quote when the text has
    a single quote and no double quote, a single quote otherwise. *)
Definition repr_quote (s : string) : ascii :=
  if string_contains squote s && negb (string_contains dquote s) then dquote
  else squote.

(** What [repr] writes for one character. *)
Definition repr_char (quote ch : ascii) : string :=
  let n := N_of_ascii ch in
  if Ascii.eqb ch quote || Ascii.eqb ch backslash then
    String backslash (String ch "")
  else if (n =? 9)%N then String backslash "t"
  else if (n =? 10)%N then String backslash "n"
  else if (n =? 13)%N then String backslash "r"
  else if ((n <? 32) || (n =? 127))%N then hex_escape n
  else if (n <? 127)%N then String ch ""
  else if isprintable n then String ch ""
  else hex_escape n.

Fixpoint repr_body (quote : ascii) (s : string) : string :=
  match s with
  | EmptyString => EmptyString
  | String ch s' => repr_char quote ch +:+ repr_body quote s'
  end.

(** [repr(s)] for a [str]. *)
Definition repr_str (s : string) : string :=
  let q := repr_quote s in
  String q (repr_body q s +:+ String q "").

(** [repr(x)] for [None] or a [str]. *)
Definition repr_optional_str (x : option string) : string :=
  match x with
  | None => "None"
  | Some s => repr_str s
  end.

(** [Connection.__repr__]; [repr] of an [int] is its decimal writing. *)
Definition __repr__ {operation : Type} (self : Connection operation) : string :=
  "Connection(host=" +:+ repr_str (host self)
  +:+ ", port=" +:+ pretty (port self)
  +:+ ", unixsocket=" +:+ repr_optional_str (unixsocket self) +:+ ")".

(** Reading back what [repr] writes for one character: the value of a
    hexadecimal digit, and the character that the text starts with together
    with the rest of the text; the closing quote reads as no character. *)
Definition hex_value (ch : ascii) : N :=
  let n := N_of_ascii ch in
  (if n <? 58 then n - 48 else n - 87)%N.

Definition unrepr_char (quote : ascii) (s : string) : option (ascii * string) :=
  match s with
  | EmptyString => None
  | String a rest =>
      if Ascii.eqb a backslash then
        match rest with
        | EmptyString => None
        | String b rest' =>
            if Ascii.eqb b "t" then Some (ascii_of_N 9, rest')
            else if Ascii.eqb b "n" then Some (ascii_of_N 10, rest')
            else if Ascii.eqb b "r" then Some (ascii_of_N 13, rest')
            else if Ascii.eqb b "x" then
              match rest' with
              | String h1 (String h2 rest'') =>
                  Some (ascii_of_N (16 * hex_value h1 + hex_value h2), rest'')
              | _ => None
              end
            else Some (b, rest')
        end
      else if Ascii.eqb a quote then None
      else Some (a, rest)
  end.

Fixpoint string_forallb (p : ascii -> bool) (s : string) : bool :=
  match s with
  | EmptyString => true
  | String a s' => p a && string_forallb p s'
  end.

(** ** Loss and recovery *)





Definition not_comma (ch : ascii) : bool := negb (Ascii.eqb ch ",").

(** ** How a run ends *)

(** The first outcome in a script that the loop does not retry after: a
    transport, or an exception that is not an [OSError]; and what the script
    holds after it. *)
Fixpoint first_decisive (script : list attempt_result)
    : option (attempt_result * list attempt_result) :=
  match script with
  | [] => None
  | Established t :: rest => Some (Established t, rest)
  | Failed e :: rest =>
      if isinstance_OSError e then first_decisive rest
      else Some (Failed e, rest)
  end.

(** The retried failures before it. *)
Fixpoint retried_before (script : list attempt_result) : nat :=
  match script with
  | Failed e :: rest =>
      if isinstance_OSError e then S (retried_before rest) else O
  | _ => O
  end.

(** ** Shapes of traces *)

(** What a run does towards the server, leaving the log aside: it asks for a
    connection or it waits. *)
Inductive step_kind :=
| Attempt
| Wait.

Definition steps (tr : list event) : list step_kind :=
  omap (fun ev =>
          match ev with
          | CreateConnection _ _ | CreateUnixConnection _ => Some Attempt
          | Sleep _ => Some Wait
          | Log _ _ => None
          end) tr.

(** [n] rounds of attempt and wait, then one more attempt. *)
Fixpoint alternating (n : nat) : list step_kind :=
  match n with
  | O => [Attempt]
  | S k => Attempt :: Wait :: alternating k
  end.

(** ** Exact values *)

(** The rational number a binary64 value stands for; NaN and the infinities
    stand for none. *)
Definition SF_value (x : spec_float) : option Q :=
  match x with
  | S754_zero _ => Some 0%Q
  | S754_finite s m e =>
      Some (inject_Z (cond_Zopp s (Zpos m)) * Qpower 2 e)%Q
  | _ => None
  end.

Definition pynum_value (x : pynum) : option Q :=
  match x with
  | PyInt z => Some (inject_Z z)
  | PyFloat f => SF_value (Prim2SF f)
  end.

(** [min(60, 0.5 * 1.5 ** n)] over the rationals. *)
Definition backoff_closed_form (n : nat) : Q :=
  Qmin 60 ((1 # 2) * Qpower (3 # 2) (Z.of_nat n)).

(** The sample data of the examples below: two commands of the protocol
    object, and a connection to the default endpoint. *)
Definition sample_commands : list string := ["get"; "set"].

Definition sample_operations : gmap string string :=
  {["get" := "RedisProtocol.get"; "set" := "RedisProtocol.set"]}.

Definition sample_protocol : RedisProtocol string :=
  {| password := None; db := 0; encoder := None;
     connection_lost_callback := connection_lost_closure true;
     protocol_loop := get_event_loop;
     protocol_transport := None;
     operations := sample_operations |}.

Definition sample_connection : Connection string :=
  {| host := "localhost"; port := 6379; unixsocket := None;
     _loop := get_event_loop; _retry_interval := PyFloat 0.5;
     protocol := sample_protocol |}.

(** A connection that has a transport, on an idle loop; the endpoint will
    refuse one connection and then accept one. *)
Definition sample_world (auto_reconnect : bool) : world string :=
  {| manager :=
       {| host := "localhost"; port := 6379; unixsocket := None;
          _loop := get_event_loop; _retry_interval := PyFloat 0.5;
          protocol :=
            {| password := None; db := 0; encoder := None;
               connection_lost_callback := connection_lost_closure auto_reconnect;
               protocol_loop := get_event_loop;
               protocol_transport := Some 3%nat;
               operations := sample_operations |} |};
     scheduled := [];
     network := [Failed ConnectionRefusedError; Established 4%nat];
     history := [] |}.

(** Two exceptions of classes that are not builtin ones named above:
    [socket.gaierror], which derives from [OSError], and [KeyError], which
    does not. *)
Definition gaierror : exn :=
  OtherException "gaierror" ["OSError"; "Exception"; "BaseException"; "object"].

Definition KeyError : exn :=
  OtherException "KeyError" ["LookupError"; "Exception"; "BaseException"; "object"].

(** The failures that [except OSError] catches. *)
Definition retried (es : list exn) : Prop :=
  Forall (fun e => isinstance_OSError e = true) es.

(** The binary64 value [1.5]. *)
Definition SF_three_halves : spec_float :=
  S754_finite false 6755399441055744 (-52).

(** * Binary64 rounding

    What the proofs need of [SpecFloat]'s rounding: how many digits a
    mantissa has, what [shr] leaves of it, and that a product with [1.5]
    of a value at least [40] cannot round below [60]. *)

Lemma digits2_pos_bounds (p : positive) :
  2 ^ (Zpos (digits2_pos p) - 1) <= Zpos p < 2 ^ Zpos (digits2_pos p).
Proof.
  induction p as [p IH | p IH |]; cbn [digits2_pos].
  - rewrite Pos2Z.inj_succ.
    replace (Z.succ (Zpos (digits2_pos p)) - 1) with (Z.succ (Zpos (digits2_pos p) - 1)) by lia.
    rewrite !Z.pow_succ_r by lia. lia.
  - rewrite Pos2Z.inj_succ.
    replace (Z.succ (Zpos (digits2_pos p)) - 1) with (Z.succ (Zpos (digits2_pos p) - 1)) by lia.
    rewrite !Z.pow_succ_r by lia. lia.
  - cbn. lia.
Qed.

Lemma digits2_pos_unique (p : positive) (k : Z) :
  2 ^ (k - 1) <= Zpos p < 2 ^ k -> Zpos (digits2_pos p) = k.
Proof.
  intros [Hlo Hhi].
  pose proof (digits2_pos_bounds p) as [Blo Bhi].
  assert (0 < k).
  { destruct (Z_lt_le_dec 0 k) as [|Hk]; [assumption|].
    assert (2 ^ k <= 2 ^ 0) by (apply Z.pow_le_mono_r; lia).
    change (2 ^ 0) with 1 in *. lia. }
  destruct (Z_lt_le_dec (Zpos (digits2_pos p)) k) as [Hlt|Hge].
  - assert (2 ^ Zpos (digits2_pos p) <= 2 ^ (k - 1)) by (apply Z.pow_le_mono_r; lia). lia.
  - destruct (Z_lt_le_dec k (Zpos (digits2_pos p))) as [Hlt|Hle]; [|lia].
    assert (2 ^ k <= 2 ^ (Zpos (digits2_pos p) - 1)) by (apply Z.pow_le_mono_r; lia). lia.
Qed.

Lemma shr_1_m (mrs : shr_record) :
  0 <= shr_m mrs -> shr_m (shr_1 mrs) = shr_m mrs / 2.
Proof.
  destruct mrs as [m r s]; cbn [shr_m]; intros Hm.
  destruct m as [|p|p]; [reflexivity| |lia].
  destruct p as [p|p|]; cbn [shr_1 shr_m].
  - apply Z.div_unique with (r := 1); lia.
  - apply Z.div_unique with (r := 0); lia.
  - reflexivity.
Qed.

Lemma iter_pos_shr_1_m (n : positive) (mrs : shr_record) :
  0 <= shr_m mrs -> shr_m (SpecFloat.iter_pos shr_1 n mrs) = shr_m mrs / 2 ^ Zpos n.
Proof.
  revert mrs; induction n as [n IH | n IH |]; intros mrs Hm; cbn [SpecFloat.iter_pos].
  - assert (H1 : 0 <= shr_m (shr_1 mrs)).
    { rewrite shr_1_m by assumption. apply Z.div_pos; lia. }
    assert (H2 : 0 <= shr_m (SpecFloat.iter_pos shr_1 n (shr_1 mrs))).
    { rewrite IH by assumption. apply Z.div_pos; [lia|]. apply Z.pow_pos_nonneg; lia. }
    assert (P : 0 < 2 ^ Zpos n) by (apply Z.pow_pos_nonneg; lia).
    assert (E : 2 ^ Zpos n~1 = 2 * 2 ^ Zpos n * 2 ^ Zpos n).
    { replace (Zpos n~1) with (1 + Zpos n + Zpos n) by lia.
      rewrite !Z.pow_add_r by lia. reflexivity. }
    rewrite IH, IH, shr_1_m, E by assumption.
    rewrite !Z.div_div by lia. f_equal; lia.
  - assert (H2 : 0 <= shr_m (SpecFloat.iter_pos shr_1 n mrs)).
    { rewrite IH by assumption. apply Z.div_pos; [lia|]. apply Z.pow_pos_nonneg; lia. }
    assert (P : 0 < 2 ^ Zpos n) by (apply Z.pow_pos_nonneg; lia).
    assert (E : 2 ^ Zpos n~0 = 2 ^ Zpos n * 2 ^ Zpos n).
    { replace (Zpos n~0) with (Zpos n + Zpos n) by lia.
      apply Z.pow_add_r; lia. }
    rewrite IH, IH, E by assumption.
    rewrite !Z.div_div by lia. f_equal; lia.
  - apply shr_1_m; assumption.
Qed.

Lemma shr_m_e (mrs : shr_record) (e n : Z) :
  0 <= shr_m mrs -> 0 <= n ->
  shr_m (fst (shr mrs e n)) = shr_m mrs / 2 ^ n /\ snd (shr mrs e n) = e + n.
Proof.
  intros Hm Hn. destruct n as [|n|n]; cbn [shr fst snd].
  - rewrite Z.div_1_r. lia.
  - split; [apply iter_pos_shr_1_m; assumption | reflexivity].
  - lia.
Qed.

Lemma round_nearest_even_bounds (m : Z) (l : location) :
  m <= round_nearest_even m l <= m + 1.
Proof.
  destruct l as [|[| |]]; cbn [round_nearest_even]; try lia.
  destruct (Z.even m); lia.
Qed.

Lemma pow2_le (a b : Z) : 0 <= a <= b -> 2 ^ a <= 2 ^ b.
Proof. intros. apply Z.pow_le_mono_r; lia. Qed.

Lemma pow2_pos (a : Z) : 0 <= a -> 0 < 2 ^ a.
Proof. intros. apply Z.pow_pos_nonneg; lia. Qed.

Lemma binary_round_aux_normal (M : positive) (E : Z) :
  let d := Zpos (digits2_pos M) in
  53 <= d -> -1074 <= d + E - 53 ->
  exists m3 e3,
    binary_round_aux prec emax false (Zpos M) E loc_Exact
      = (if e3 <=? emax - prec then S754_finite false m3 e3 else S754_infinity false)
    /\ 2 ^ 52 <= Zpos m3 < 2 ^ 53
    /\ ((e3 = E + d - 53 /\ Zpos M / 2 ^ (d - 53) <= Zpos m3)
        \/ (e3 = E + d - 53 + 1 /\ Zpos m3 = 2 ^ 52)).
Proof.
  intros d Hd Hmin.
  pose proof (digits2_pos_bounds M) as [Mlo Mhi]. fold d in Mlo, Mhi.
  assert (P : 0 < 2 ^ (d - 53)) by (apply pow2_pos; lia).
  assert (Elo : 2 ^ (d - 1) = 2 ^ (d - 53) * 2 ^ 52).
  { rewrite <- Z.pow_add_r by lia. f_equal; lia. }
  assert (Ehi : 2 ^ d = 2 ^ (d - 53) * 2 ^ 53).
  { rewrite <- Z.pow_add_r by lia. f_equal; lia. }
  set (m1 := Zpos M / 2 ^ (d - 53)).
  assert (B1 : 2 ^ 52 <= m1 < 2 ^ 53).
  { split.
    - apply Z.div_le_lower_bound; lia.
    - apply Z.div_lt_upper_bound; lia. }
  unfold binary_round_aux, shr_fexp.
  assert (N1 : fexp prec emax (Zdigits2 (Zpos M) + E) - E = d - 53).
  { unfold fexp, emin, prec, emax. cbn [Zdigits2]. fold d. lia. }
  rewrite N1.
  destruct (shr_m_e (shr_record_of_loc (Zpos M) loc_Exact) E (d - 53)) as [S1 S2];
    [cbn; lia | lia |].
  destruct (shr (shr_record_of_loc (Zpos M) loc_Exact) E (d - 53)) as [mrs1 e1].
  cbn [fst snd] in S1, S2. cbn [shr_record_of_loc shr_m] in S1. fold m1 in S1.
  pose proof (round_nearest_even_bounds (shr_m mrs1) (loc_of_shr_record mrs1)) as B2.
  set (m2 := round_nearest_even (shr_m mrs1) (loc_of_shr_record mrs1)) in *.
  rewrite S1 in B2.
  assert (Pm2 : 0 < m2) by lia.
  destruct m2 as [|p2|p2] eqn:Em2; try lia.
  destruct (Z_lt_le_dec (Zpos p2) (2 ^ 53)) as [Hlt|Hge].
  - assert (D2 : Zpos (digits2_pos p2) = 53) by (apply digits2_pos_unique; lia).
    assert (N2 : fexp prec emax (Zdigits2 (Zpos p2) + e1) - e1 = 0).
    { unfold fexp, emin, prec, emax. cbn [Zdigits2]. rewrite D2. lia. }
    rewrite N2. cbn [shr shr_record_of_loc shr_m].
    exists p2, e1. split; [reflexivity|]. split; [lia|]. left. lia.
  - assert (Ep2 : Zpos p2 = 2 ^ 53) by lia.
    assert (Ep : p2 = 9007199254740992%positive) by (change (2 ^ 53) with 9007199254740992 in Ep2; congruence).
    subst p2.
    assert (N2 : fexp prec emax (Zdigits2 9007199254740992 + e1) - e1 = 1).
    { unfold fexp, emin, prec, emax. cbn [Zdigits2 digits2_pos Pos.succ]. lia. }
    rewrite N2. cbn [shr shr_record_of_loc shr_m SpecFloat.iter_pos shr_1].
    exists 4503599627370496%positive, (e1 + 1). split; [reflexivity|].
    split; [change (2 ^ 52) with 4503599627370496; change (2 ^ 53) with 9007199254740992; lia|].
    right. split; [lia | reflexivity].
Qed.

Lemma valid_ge_40_normal (s : bool) (m : positive) (e : Z) :
  valid_binary (S754_finite s m e) = true ->
  (SF_compare_int (S754_finite s m e) 40 = Some Gt
   \/ SF_compare_int (S754_finite s m e) 40 = Some Eq) ->
  s = false /\ 2 ^ 52 <= Zpos m < 2 ^ 53 /\ -47 <= e
  /\ (e = -47 -> 5629499534213120 <= Zpos m).
Proof.
  intros Hv Hc.
  cbn [valid_binary] in Hv. unfold bounded, canonical_mantissa in Hv.
  apply andb_prop in Hv as [Hcan _]. apply Z.eqb_eq in Hcan.
  unfold fexp, emin, prec, emax in Hcan.
  pose proof (digits2_pos_bounds m) as [Mlo Mhi].
  cbn [SF_compare_int] in Hc.
  assert (Hs : s = false).
  { destruct s; [|reflexivity]. exfalso. cbn [cond_Zopp] in Hc.
    destruct (0 <=? e) eqn:He.
    - apply Z.leb_le in He.
      assert (0 < 2 ^ e) by (apply pow2_pos; lia).
      assert ((- Zpos m * 2 ^ e ?= 40) = Lt) by (apply Z.compare_lt_iff; nia).
      destruct Hc; congruence.
    - apply Z.leb_gt in He.
      assert (0 < 2 ^ (- e)) by (apply pow2_pos; lia).
      assert ((- Zpos m ?= 40 * 2 ^ (- e)) = Lt) by (apply Z.compare_lt_iff; nia).
      destruct Hc; congruence. }
  subst s. cbn [cond_Zopp] in Hc. split; [reflexivity|].
  assert (Hge : if 0 <=? e then 40 <= Zpos m * 2 ^ e else 40 * 2 ^ (- e) <= Zpos m).
  { destruct (0 <=? e).
    - destruct (Z.compare_spec (Zpos m * 2 ^ e) 40); try lia.
      destruct Hc; congruence.
    - destruct (Z.compare_spec (Zpos m) (40 * 2 ^ (- e))); try lia.
      destruct Hc; congruence. }
  clear Hc.
  assert (Hd : Zpos (digits2_pos m) = 53).
  { destruct (Z_lt_le_dec (Zpos (digits2_pos m) + e - 53) (-1074)) as [Hsub|Hn]; [|lia].
    exfalso.
    assert (He : e = -1074) by lia. subst e.
    change (0 <=? -1074) with false in Hge. change (- -1074) with 1074 in Hge.
    assert (2 ^ Zpos (digits2_pos m) <= 2 ^ 1074) by (apply pow2_le; lia).
    assert (0 < 2 ^ 1074) by (apply pow2_pos; lia).
    cbv iota in Hge. lia. }
  rewrite Hd in Mlo, Mhi. change (53 - 1) with 52 in Mlo.
  split; [lia|].
  assert (He : -47 <= e).
  { destruct (Z_lt_le_dec e (-47)) as [Hlt|]; [|assumption]. exfalso.
    replace (0 <=? e) with false in Hge by (symmetry; apply Z.leb_gt; lia).
    cbv iota in Hge.
    assert (2 ^ 48 <= 2 ^ (- e)) by (apply pow2_le; lia).
    change (2 ^ 48) with 281474976710656 in *.
    change (2 ^ 53) with 9007199254740992 in *. lia. }
  split; [assumption|].
  intros ->. change (0 <=? -47) with false in Hge. cbv iota in Hge.
  change (40 * 2 ^ (- -47)) with 5629499534213120 in Hge. exact Hge.
Qed.

Lemma three_halves_times_ge_60 (x : spec_float) :
  valid_binary x = true ->
  (SF_compare_int x 40 = Some Gt \/ SF_compare_int x 40 = Some Eq) ->
  SF_compare_int (SF64mul SF_three_halves x) 60 = Some Gt
  \/ SF_compare_int (SF64mul SF_three_halves x) 60 = Some Eq.
Proof.
  intros Hv Hc. destruct x as [s|s| |s m e].
  - exfalso. cbn in Hc. destruct Hc; discriminate.
  - destruct s; [cbn in Hc; destruct Hc; discriminate|]. left. reflexivity.
  - exfalso. cbn in Hc. destruct Hc; discriminate.
  - destruct (valid_ge_40_normal s m e Hv Hc) as (-> & [Mlo Mhi] & He & H47).
    clear Hc Hv.
    unfold SF64mul, SF_three_halves. cbn [SFmul xorb].
    set (M := (6755399441055744 * m)%positive).
    assert (HM : Zpos M = 6755399441055744 * Zpos m) by reflexivity.
    change (2 ^ 52) with 4503599627370496 in *.
    change (2 ^ 53) with 9007199254740992 in *.
    assert (Hd : Zpos (digits2_pos M) = 105 \/ Zpos (digits2_pos M) = 106).
    { destruct (Z_lt_le_dec (Zpos M) (2 ^ 105)) as [Hlt|Hge].
      - left. apply digits2_pos_unique. change (105 - 1) with 104.
        change (2 ^ 104) with 20282409603651670423947251286016 in *.
        lia.
      - right. apply digits2_pos_unique. change (106 - 1) with 105.
        change (2 ^ 106) with 81129638414606681695789005144064 in *.
        lia. }
    destruct (binary_round_aux_normal M (-52 + e)) as (m3 & e3 & -> & [Rlo Rhi] & Hr);
      [lia | lia |].
    change (2 ^ 52) with 4503599627370496 in *.
    change (2 ^ 53) with 9007199254740992 in *.
    destruct (e3 <=? emax - prec); [|left; reflexivity].
    cbn [SF_compare_int cond_Zopp].
    assert (Hfin : if 0 <=? e3 then 60 <= Zpos m3 * 2 ^ e3 else 60 * 2 ^ (- e3) <= Zpos m3).
    { destruct (0 <=? e3) eqn:H0.
      - apply Z.leb_le in H0. assert (0 < 2 ^ e3) by (apply pow2_pos; lia). nia.
      - apply Z.leb_gt in H0.
        destruct (Z_lt_le_dec (-47) e3) as [Hbig|Hsmall].
        + assert (2 ^ (- e3) <= 2 ^ 46) by (apply pow2_le; lia).
          change (2 ^ 46) with 70368744177664 in *. lia.
        + assert (He3 : e3 = -47) by lia.
          destruct Hr as [[He1 Hm3] | [He1 Hm3]]; [|lia].
          assert (e = -47 /\ Zpos (digits2_pos M) = 105) as [-> Hd105] by lia.
          specialize (H47 eq_refl).
          rewrite Hd105 in Hm3. change (105 - 53) with 52 in Hm3.
          rewrite He3. change (60 * 2 ^ (- -47)) with 8444249301319680.
          eapply Z.le_trans; [|exact Hm3].
          apply Z.div_le_lower_bound; [reflexivity|].
          change (2 ^ 52) with 4503599627370496. lia. }
    destruct (0 <=? e3).
    + destruct (Z.compare_spec (Zpos m3 * 2 ^ e3) 60); auto; lia.
    + destruct (Z.compare_spec (Zpos m3) (60 * 2 ^ (- e3))); auto; lia.
Qed.

(** * Backoff *)

Section Backoff.
Context {operation : Type}.
Implicit Types (self c : Connection operation) (x y : pynum) (n : nat).

Lemma retry_interval_set c x : _retry_interval (set_retry_interval c x) = x.
Proof. reflexivity. Qed.

Lemma set_retry_interval_set c x y :
  set_retry_interval (set_retry_interval c x) y = set_retry_interval c y.
Proof. reflexivity. Qed.

Lemma set_retry_interval_same c : set_retry_interval c (_retry_interval c) = c.
Proof. destruct c; reflexivity. Qed.

Lemma increase_retry_interval_next c :
  _increase_retry_interval c
  = (v ← next_interval (_retry_interval c); Ok (set_retry_interval c v)).
Proof.
  unfold _increase_retry_interval, next_interval.
  destruct (py_mul (PyFloat 1.5) (_retry_interval c)); reflexivity.
Qed.

Lemma increase_retry_interval_at c x y :
  _retry_interval c = x -> next_interval x = Ok y ->
  _increase_retry_interval c = Ok (set_retry_interval c y).
Proof.
  intros Hx Hy. rewrite increase_retry_interval_next, Hx, Hy. reflexivity.
Qed.

End Backoff.

Lemma next_interval_ceiling : next_interval (PyInt 60) = Ok (PyInt 60).
Proof. vm_compute. reflexivity. Qed.

Lemma backoff_after_ceiling (n : nat) :
  (12 <= n)%nat -> backoff_after n = PyInt 60.
Proof. intros Hn. apply nth_overflow. exact Hn. Qed.

(** Case analysis on an index into the schedule: the twelve entries one by
    one, then everything past the table. *)
Ltac schedule_cases n :=
  do 12 (destruct n as [|n]; [vm_compute; reflexivity|]).

Lemma next_interval_schedule (n : nat) :
  next_interval (backoff_after n) = Ok (backoff_after (S n)).
Proof.
  schedule_cases n.
  rewrite !backoff_after_ceiling by lia. exact next_interval_ceiling.
Qed.

Lemma backoff_after_mono (n : nat) :
  py_le (backoff_after n) (backoff_after (S n)) = true.
Proof.
  schedule_cases n. rewrite !backoff_after_ceiling by lia. reflexivity.
Qed.

Lemma backoff_after_lower (n : nat) :
  py_le (PyFloat 0.5) (backoff_after n) = true.
Proof.
  schedule_cases n. rewrite backoff_after_ceiling by lia.
  vm_compute. reflexivity.
Qed.

Lemma backoff_after_upper (n : nat) :
  py_le (backoff_after n) (PyInt 60) = true.
Proof.
  schedule_cases n. rewrite backoff_after_ceiling by lia. reflexivity.
Qed.

Lemma increase_times_initial {operation : Type} (c : Connection operation) (n : nat) :
  _retry_interval c = PyFloat 0.5 ->
  increase_times n c = Ok (set_retry_interval c (backoff_after n)).
Proof.
  intros H0. induction n as [|n IH]; cbn [increase_times].
  - change (backoff_after 0) with (PyFloat 0.5). rewrite <- H0.
    rewrite set_retry_interval_same. reflexivity.
  - rewrite IH. cbn [mbind result_bind].
    rewrite (increase_retry_interval_at _ (backoff_after n) (backoff_after (S n)));
      [reflexivity | reflexivity | apply next_interval_schedule].
Qed.

(** ** Backoff: the claims *)

(** C1: starting from the initial interval 0.5, after any number [n] of
    consecutive calls of [_increase_retry_interval] the next call does not
    lower the interval, and the interval is at least 0.5 and at most 60. *)
Theorem backoff_monotone_and_bounded {operation : Type}
    (c : Connection operation) (n : nat) :
  _retry_interval c = initial_interval ->
  exists c1 c2,
    increase_times n c = Ok c1
    /\ _increase_retry_interval c1 = Ok c2
    /\ py_le (_retry_interval c1) (_retry_interval c2) = true
    /\ py_le (PyFloat 0.5) (_retry_interval c1) = true
    /\ py_le (_retry_interval c1) (PyInt 60) = true.
Proof.
  intros H0.
  exists (set_retry_interval c (backoff_after n)),
         (set_retry_interval c (backoff_after (S n))).
  split; [apply increase_times_initial; exact H0|].
  split.
  { rewrite (increase_retry_interval_at _ (backoff_after n) (backoff_after (S n)));
      [reflexivity | reflexivity | apply next_interval_schedule]. }
  rewrite !retry_interval_set.
  auto using backoff_after_mono, backoff_after_lower, backoff_after_upper.
Qed.

Lemma backoff_monotone_and_bounded_witness :
  _retry_interval sample_connection = initial_interval
  /\ exists c1 c2,
       increase_times 14 sample_connection = Ok c1
       /\ _increase_retry_interval c1 = Ok c2
       /\ py_le (_retry_interval c1) (_retry_interval c2) = true
       /\ py_le (PyFloat 0.5) (_retry_interval c1) = true
       /\ py_le (_retry_interval c1) (PyInt 60) = true.
Proof.
  split; [reflexivity|].
  apply (backoff_monotone_and_bounded sample_connection 14). reflexivity.
Defined.

(** Whatever the current value, the value stored by an increase is a
    [float] or the [int] 60. *)
Lemma next_interval_value (x y : pynum) :
  next_interval x = Ok y -> interval_value y.
Proof.
  unfold next_interval. destruct (py_mul (PyFloat 1.5) x) as [v|e] eqn:Hm;
    cbn [mbind result_bind]; [|discriminate].
  intros [= <-]. unfold py_min. destruct (py_lt v (PyInt 60)); [|reflexivity].
  destruct x as [z|f]; cbn [py_mul] in Hm.
  - destruct (float_of_int z); cbn [mbind result_bind] in Hm; [|discriminate].
    injection Hm as <-. exact I.
  - injection Hm as <-. exact I.
Qed.

Lemma next_interval_ge_40 (x : pynum) :
  interval_value x -> py_le (PyInt 40) x = true ->
  next_interval x = Ok (PyInt 60).
Proof.
  destruct x as [z|f]; cbn [interval_value py_le].
  - intros -> _. exact next_interval_ceiling.
  - intros _ H40. unfold next_interval. cbn [py_mul mbind result_bind].
    unfold py_min. cbn [py_lt]. unfold float_compare_int in *.
    rewrite mul_spec.
    change (Prim2SF 1.5) with SF_three_halves.
    destruct (three_halves_times_ge_60 (Prim2SF f) (Prim2SF_valid f)) as [-> | ->];
      [|reflexivity|reflexivity].
    destruct (SF_compare_int (Prim2SF f) 40) as [[| |]|]; try discriminate; auto.
Qed.

Lemma increase_times_ceiling {operation : Type} (c : Connection operation) (n : nat) :
  _retry_interval c = PyInt 60 -> increase_times n c = Ok c.
Proof.
  intros H60. induction n as [|n IH]; cbn [increase_times]; [reflexivity|].
  rewrite IH. cbn [mbind result_bind].
  rewrite (increase_retry_interval_at c (PyInt 60) (PyInt 60) H60 next_interval_ceiling).
  rewrite <- H60. rewrite set_retry_interval_same. reflexivity.
Qed.

(** C10: from any interval of at least 40 one increase stores exactly 60,
    and every further increase leaves 60 in place. *)
Theorem increase_idempotent_at_ceiling {operation : Type}
    (c : Connection operation) :
  interval_value (_retry_interval c) ->
  py_le (PyInt 40) (_retry_interval c) = true ->
  exists c',
    _increase_retry_interval c = Ok c'
    /\ _retry_interval c' = PyInt 60
    /\ forall n, increase_times n c' = Ok c'.
Proof.
  intros Hv H40. exists (set_retry_interval c (PyInt 60)).
  split.
  { apply (increase_retry_interval_at c (_retry_interval c)); [reflexivity|].
    apply next_interval_ge_40; assumption. }
  split; [reflexivity|].
  intros n. apply increase_times_ceiling. reflexivity.
Qed.

Lemma increase_idempotent_at_ceiling_witness :
  let c := set_retry_interval sample_connection (PyFloat 40.5) in
  interval_value (_retry_interval c)
  /\ py_le (PyInt 40) (_retry_interval c) = true
  /\ exists c',
       _increase_retry_interval c = Ok c'
       /\ _retry_interval c' = PyInt 60
       /\ forall n, increase_times n c' = Ok c'.
Proof.
  split; [exact I|]. split; [vm_compute; reflexivity|].
  apply (increase_idempotent_at_ceiling
           (set_retry_interval sample_connection (PyFloat 40.5)));
    [exact I | vm_compute; reflexivity].
Defined.

(** * The reconnect loop *)

Section Reconnect.
Context {operation : Type}.
Implicit Types (self c : Connection operation) (script rest : list attempt_result).
Implicit Types (es : list exn) (k n : nat) (t : transport).

Lemma sleeps_app (tr1 tr2 : list event) :
  sleeps (tr1 ++ tr2) = sleeps tr1 ++ sleeps tr2.
Proof. apply omap_app. Qed.

Lemma connects_app (tr1 tr2 : list event) :
  connects (tr1 ++ tr2) = connects tr1 ++ connects tr2.
Proof. apply omap_app. Qed.

Lemma connects_attempt_prefix c :
  connects (attempt_prefix c) = [connect_request c].
Proof. unfold attempt_prefix, connect_request. destruct (unixsocket c); reflexivity. Qed.

Lemma sleeps_attempt_prefix c : sleeps (attempt_prefix c) = [].
Proof. unfold attempt_prefix, connect_request. destruct (unixsocket c); reflexivity. Qed.

Lemma int_of_backoff_after n : exists secs, int_of_pynum (backoff_after n) = Ok secs.
Proof.
  do 12 (destruct n as [|n]; [eexists; vm_compute; reflexivity|]).
  rewrite backoff_after_ceiling by lia. exists 60. reflexivity.
Qed.

Lemma on_failure_schedule c k :
  _retry_interval c = backoff_after k ->
  exists secs,
    on_failure c
    = (set_retry_interval c (backoff_after (S k)),
       Ok [Log INFO (retry_message secs); Sleep (backoff_after (S k))]).
Proof.
  intros Hk. destruct (int_of_backoff_after (S k)) as [secs Hsecs].
  exists secs. unfold on_failure.
  rewrite (increase_retry_interval_at c _ _ Hk (next_interval_schedule k)).
  unfold _get_retry_interval.
  rewrite retry_interval_set, Hsecs. reflexivity.
Qed.

(** What the handler leaves untouched. *)
Lemma on_failure_endpoint c c' (res : result (list event)) :
  on_failure c = (c', res) ->
  host c' = host c /\ port c' = port c /\ unixsocket c' = unixsocket c
  /\ protocol c' = protocol c
  /\ forall evs, res = Ok evs -> connects evs = [].
Proof.
  unfold on_failure, _increase_retry_interval.
  destruct (py_mul (PyFloat 1.5) (_retry_interval c)) as [y|]; cbn [mbind result_bind].
  - intros [= <- <-]. repeat split.
    intros evs. destruct (int_of_pynum _); cbn [mbind result_bind]; [|discriminate].
    intros [= <-]. reflexivity.
  - intros [= <- <-]. repeat split. discriminate.
Qed.

(** A run of retried failures walks along the schedule and then goes on as
    the loop does from the interval reached. *)
Lemma reconnect_retried es : forall c k script,
  retried es ->
  _retry_interval c = backoff_after k ->
  let r := _reconnect c (map Failed es ++ script) in
  let r' := _reconnect (set_retry_interval c (backoff_after (k + length es))) script in
  run_outcome r = run_outcome r'
  /\ run_self r = run_self r'
  /\ run_rest r = run_rest r'
  /\ sleeps (run_trace r)
     = map backoff_after (seq (S k) (length es)) ++ sleeps (run_trace r')
  /\ connects (run_trace r)
     = replicate (length es) (connect_request c) ++ connects (run_trace r').
Proof.
  induction es as [|e es IH]; intros c k script Hes Hk; cbn zeta.
  - cbn [map app length seq replicate]. rewrite Nat.add_0_r, <- Hk, set_retry_interval_same.
    repeat split; reflexivity.
  - apply Forall_cons in Hes as [He Hes].
    destruct (on_failure_schedule c k Hk) as [secs Hf].
    cbn [map app _reconnect]. rewrite He, Hf. cbn [run_outcome run_self run_rest run_trace].
    specialize (IH (set_retry_interval c (backoff_after (S k))) (S k) script Hes eq_refl).
    cbn zeta in IH. rewrite set_retry_interval_set in IH.
    replace (k + length (e :: es))%nat with (S k + length es)%nat by (cbn [length]; lia).
    destruct IH as (-> & -> & -> & Hs & Hc).
    repeat split.
    + rewrite !sleeps_app, sleeps_attempt_prefix, Hs. reflexivity.
    + rewrite !connects_app, connects_attempt_prefix, Hc. reflexivity.
Qed.

(** The endpoint fields are never assigned by the loop, and every request
    of a run is the one its endpoint determines. *)
Lemma reconnect_endpoint script : forall c,
  let r := _reconnect c script in
  host (run_self r) = host c
  /\ port (run_self r) = port c
  /\ unixsocket (run_self r) = unixsocket c
  /\ Forall (fun ev => ev = connect_request c) (connects (run_trace r))
  /\ In (connect_request c) (run_trace r).
Proof.
  induction script as [|a script IH]; intros c; cbn zeta.
  - cbn [_reconnect run_self run_trace]. rewrite connects_attempt_prefix.
    repeat split; [repeat constructor | right; left; reflexivity].
  - destruct a as [t|e]; cbn [_reconnect].
    + cbn [run_self run_trace]. rewrite connects_attempt_prefix.
      repeat split; [repeat constructor | right; left; reflexivity].
    + destruct (isinstance_OSError e).
      * destruct (on_failure c) as [c' [evs|e']] eqn:Hf;
          apply on_failure_endpoint in Hf as (Hh & Hp & Hu & _ & Hc).
        -- specialize (IH c'). cbn zeta in IH.
           destruct IH as (IHh & IHp & IHu & IHc & _).
           cbn [run_self run_trace].
           rewrite !connects_app, connects_attempt_prefix, (Hc evs eq_refl).
           assert (Hreq : connect_request c' = connect_request c).
           { unfold connect_request. rewrite Hh, Hp, Hu. reflexivity. }
           rewrite Hreq in IHc.
           repeat split; try congruence.
           ++ constructor; [reflexivity | exact IHc].
           ++ right; left; reflexivity.
        -- cbn [run_self run_trace]. rewrite connects_attempt_prefix.
           repeat split; [assumption .. | repeat constructor | right; left; reflexivity].
      * cbn [run_self run_trace]. rewrite connects_attempt_prefix.
        repeat split; [repeat constructor | right; left; reflexivity].
Qed.

End Reconnect.

Lemma in_connects (tr : list event) (ev : event) :
  In ev tr ->
  match ev with
  | CreateConnection _ _ | CreateUnixConnection _ => In ev (connects tr)
  | _ => True
  end.
Proof.
  induction tr as [|a tr IH]; [intros []|].
  intros [-> | Hin].
  - destruct ev; try exact I; left; reflexivity.
  - specialize (IH Hin). destruct ev; try exact I;
      unfold connects in *; cbn [omap list_omap]; destruct a; try (right; exact IH); exact IH.
Qed.

(** ** The reconnect loop: the claims *)

(** C2 (as the code has it): with the default endpoint unreachable at the
    first two attempts and reachable at the third, [create] returns after
    having slept 0.75 s and then 1.125 s, with the interval back at 0.5 and
    the new transport bound; all three attempts went to localhost:6379. *)
Theorem create_two_failures_then_success {operation : Type}
    (password : option string) (db : Z) (encoder : option string)
    (auto_reconnect : bool) (loop : option event_loop)
    (commands : gmap string operation)
    (e1 e2 : exn) (t : transport) (rest : list attempt_result) :
  isinstance_OSError e1 = true ->
  isinstance_OSError e2 = true ->
  let r := create "localhost" 6379 password db encoder auto_reconnect None loop
             commands (Failed e1 :: Failed e2 :: Established t :: rest) in
  run_outcome r = Returned
  /\ sleeps (run_trace r) = [PyFloat 0.75; PyFloat 1.125]
  /\ _retry_interval (run_self r) = PyFloat 0.5
  /\ connects (run_trace r) = replicate 3 (CreateConnection "localhost" 6379)
  /\ transport_of (run_self r) = Some t
  /\ run_rest r = rest.
Proof.
  intros H1 H2. unfold create. cbn zeta.
  set (c := Build_Connection _ _ _ _ _ _).
  destruct (reconnect_retried [e1; e2] c 0 (Established t :: rest))
    as (Ho & Hself & Hrest & Hs & Hc).
  { repeat constructor; assumption. }
  { reflexivity. }
  change (map Failed [e1; e2] ++ Established t :: rest)
    with (Failed e1 :: Failed e2 :: Established t :: rest) in *.
  rewrite Ho, Hself, Hrest, Hs, Hc. repeat split; reflexivity.
Qed.

Lemma create_two_failures_then_success_witness :
  let r := create "localhost" 6379 None 0 None true None None sample_operations
             [Failed ConnectionRefusedError; Failed TimeoutError; Established 7%nat] in
  run_outcome r = Returned
  /\ sleeps (run_trace r) = [PyFloat 0.75; PyFloat 1.125]
  /\ _retry_interval (run_self r) = PyFloat 0.5
  /\ connects (run_trace r) = replicate 3 (CreateConnection "localhost" 6379)
  /\ transport_of (run_self r) = Some 7%nat
  /\ run_rest r = [].
Proof.
  apply (create_two_failures_then_success None 0 None true None sample_operations
           ConnectionRefusedError TimeoutError 7%nat []); reflexivity.
Defined.

(** C2, as stated, fails: the first wait is 0.75 s, not 0.5 s, because the
    handler increases the interval before it reads it. *)
Lemma create_two_failures_waits_counterexample :
  sleeps (run_trace
            (create "localhost" 6379 None 0 None true None None sample_operations
               [Failed ConnectionRefusedError; Failed ConnectionRefusedError;
                Established 7%nat]))
  = [PyFloat 0.75; PyFloat 1.125]
  /\ [PyFloat 0.75; PyFloat 1.125] <> [PyFloat 0.5; PyFloat 0.75].
Proof.
  split; [vm_compute; reflexivity|].
  intros H.
  apply (f_equal (fun l => match l with
                           | PyFloat x :: _ => PrimFloat.eqb x 0.5
                           | _ => true
                           end)) in H.
  vm_compute in H. discriminate H.
Qed.

Lemma increase_times_schedule {operation : Type} (c : Connection operation) (k n : nat) :
  _retry_interval c = backoff_after k ->
  increase_times n c = Ok (set_retry_interval c (backoff_after (k + n))).
Proof.
  intros Hk. induction n as [|n IH]; cbn [increase_times].
  - rewrite Nat.add_0_r, <- Hk, set_retry_interval_same. reflexivity.
  - rewrite IH. cbn [mbind result_bind].
    replace (k + S n)%nat with (S (k + n)) by lia.
    rewrite (increase_retry_interval_at _ (backoff_after (k + n)) (backoff_after (S (k + n))));
      [reflexivity | reflexivity | apply next_interval_schedule].
Qed.

Lemma backoff_after_grown (j : nat) :
  py_lt (PyFloat 0.5) (backoff_after (S j)) = true.
Proof.
  do 11 (destruct j as [|j]; [vm_compute; reflexivity|]).
  rewrite backoff_after_ceiling by lia. vm_compute. reflexivity.
Qed.

(** C3: after any number of failure-driven increases, one reset stores
    exactly 0.5, and the reconnect loop performs it on success, before it
    returns.  From any interval of the schedule (the [k]-th), a run that
    meets the retried failures [es] and then a transport has really raised
    the interval: it has slept the next [length es] intervals of the
    schedule, and the connection on which the last attempt succeeds holds
    the interval number [k + length es], which is above 0.5 as soon as one
    increase has happened.  The run returns that connection, the transport
    bound, with the interval reset to exactly 0.5.  The same holds of
    [length es] direct calls of [_increase_retry_interval] followed by one
    [_reset_retry_interval]. *)
Theorem reset_restores_initial_interval {operation : Type}
    (c : Connection operation) (k : nat) (es : list exn) (t : transport)
    (rest : list attempt_result) :
  _retry_interval c = backoff_after k ->
  retried es ->
  let raised := set_retry_interval c (backoff_after (k + length es)) in
  (increase_times (length es) c = Ok raised
   /\ _reset_retry_interval raised = set_retry_interval c (PyFloat 0.5))
  /\ ((0 < k + length es)%nat ->
      py_lt (PyFloat 0.5) (_retry_interval raised) = true)
  /\ (let r := _reconnect c (map Failed es ++ Established t :: rest) in
      run_outcome r = Returned
      /\ sleeps (run_trace r) = map backoff_after (seq (S k) (length es))
      /\ run_self r
         = _reset_retry_interval
             (set_protocol raised (connection_made (protocol c) t))
      /\ _retry_interval (run_self r) = PyFloat 0.5
      /\ run_rest r = rest).
Proof.
  intros Hk Hes. cbn zeta. split; [split|split].
  - apply increase_times_schedule. exact Hk.
  - reflexivity.
  - intros Hpos. rewrite retry_interval_set.
    destruct (k + length es)%nat as [|j]; [lia|]. apply backoff_after_grown.
  - destruct (reconnect_retried es c k (Established t :: rest) Hes Hk)
      as (Ho & Hself & Hrest & Hs & _).
    rewrite Ho, Hself, Hrest, Hs.
    cbn [_reconnect run_outcome run_self run_rest run_trace].
    rewrite sleeps_attempt_prefix, app_nil_r. repeat split.
Qed.

Lemma reset_restores_initial_interval_witness :
  _retry_interval (set_retry_interval sample_connection (PyFloat 1.125))
  = backoff_after 2
  /\ retried [OSError; ConnectionRefusedError; TimeoutError]
  /\ sleeps
       (run_trace
          (_reconnect (set_retry_interval sample_connection (PyFloat 1.125))
             (map Failed [OSError; ConnectionRefusedError; TimeoutError]
              ++ Established 1%nat :: [])))
     = [PyFloat 1.6875; PyFloat 2.53125; PyFloat 3.796875]
  /\ _retry_interval
       (run_self
          (_reconnect (set_retry_interval sample_connection (PyFloat 1.125))
             (map Failed [OSError; ConnectionRefusedError; TimeoutError]
              ++ Established 1%nat :: [])))
     = PyFloat 0.5.
Proof.
  assert (Hes : retried [OSError; ConnectionRefusedError; TimeoutError])
    by (repeat constructor).
  pose proof (reset_restores_initial_interval
                (set_retry_interval sample_connection (PyFloat 1.125)) 2
                [OSError; ConnectionRefusedError; TimeoutError] 1%nat []
                eq_refl Hes) as (_ & _ & _ & Hs & _ & Hi & _).
  split; [reflexivity|]. split; [exact Hes|]. split; [exact Hs | exact Hi].
Defined.

(** C6: the loop retries after an [OSError], of the class itself or of any
    class derived from it, and after nothing else.  An exception of another
    class raised by a connection attempt leaves the loop at once: it is the outcome of the run, nothing is slept and no
    further attempt is made, whether it comes first or after any number of
    retried failures.  An [OSError] at the same place is caught: the run
    goes on with the next attempt. *)
Theorem reconnect_catches_only_OSError {operation : Type}
    (c : Connection operation) (es : list exn) (e : exn)
    (rest : list attempt_result) :
  (isinstance_OSError e = false ->
   _reconnect c (Failed e :: rest)
   = {| run_outcome := Raised e; run_self := c;
        run_trace := attempt_prefix c; run_rest := rest |})
  /\ (_retry_interval c = initial_interval -> retried es ->
      isinstance_OSError e = false ->
      let r := _reconnect c (map Failed es ++ Failed e :: rest) in
      run_outcome r = Raised e
      /\ run_rest r = rest
      /\ length (connects (run_trace r)) = S (length es)
      /\ length (sleeps (run_trace r)) = length es)
  /\ (_retry_interval c = initial_interval -> retried es ->
      isinstance_OSError e = true ->
      let r := _reconnect c (map Failed es ++ Failed e :: rest) in
      let r' := _reconnect
                  (set_retry_interval c (backoff_after (S (length es)))) rest in
      run_outcome r = run_outcome r'
      /\ run_rest r = run_rest r'
      /\ length (sleeps (run_trace r))
         = (S (length es) + length (sleeps (run_trace r')))%nat).
Proof.
  split; [|split].
  - intros He. cbn [_reconnect]. rewrite He. reflexivity.
  - intros H0 Hes He.
    destruct (reconnect_retried es c 0 (Failed e :: rest) Hes H0)
      as (Ho & _ & Hrest & Hs & Hc).
    cbn zeta. rewrite Ho, Hrest, Hs, Hc. cbn [_reconnect]. rewrite He.
    cbn [run_outcome run_rest run_trace].
    rewrite connects_attempt_prefix, sleeps_attempt_prefix.
    rewrite !length_app, length_map, length_seq, length_replicate. cbn [length].
    repeat split; lia.
  - intros H0 Hes He.
    assert (Hes' : retried (es ++ [e])).
    { apply Forall_app. split; [exact Hes | repeat constructor; exact He]. }
    destruct (reconnect_retried (es ++ [e]) c 0 rest Hes' H0)
      as (Ho & _ & Hrest & Hs & _).
    rewrite map_app, <- app_assoc in Ho, Hrest, Hs. cbn [map app] in Ho, Hrest, Hs.
    rewrite length_app in Ho, Hrest, Hs. cbn [length] in Ho, Hrest, Hs.
    replace (0 + (length es + 1))%nat with (S (length es)) in * by lia.
    replace (length es + 1)%nat with (S (length es)) in * by lia.
    cbn zeta. rewrite Ho, Hrest, Hs.
    rewrite length_app, length_map, length_seq. repeat split; reflexivity.
Qed.

Lemma reconnect_catches_only_OSError_witness :
  _retry_interval sample_connection = initial_interval
  /\ retried [ConnectionRefusedError]
  /\ isinstance_OSError KeyError = false
  /\ isinstance_OSError ConnectionAbortedError = true
  /\ isinstance_OSError gaierror = true
  /\ run_outcome
       (_reconnect sample_connection
          (map Failed [ConnectionRefusedError]
           ++ Failed KeyError :: [Established 1%nat]))
     = Raised KeyError
  /\ run_outcome
       (_reconnect sample_connection
          (map Failed [ConnectionRefusedError]
           ++ Failed ConnectionAbortedError :: [Established 1%nat]))
     = Returned
  /\ run_outcome
       (_reconnect sample_connection
          (map Failed [ConnectionRefusedError]
           ++ Failed gaierror :: [Established 1%nat]))
     = Returned.
Proof.
  assert (Hes : retried [ConnectionRefusedError]) by (repeat constructor).
  split; [reflexivity|]. split; [exact Hes|].
  split; [reflexivity|]. split; [reflexivity|]. split; [reflexivity|].
  split; [|split].
  - exact (proj1 (proj1 (proj2 (reconnect_catches_only_OSError sample_connection
             [ConnectionRefusedError] KeyError
             [Established 1%nat])) eq_refl Hes eq_refl)).
  - rewrite (proj1 (proj2 (proj2 (reconnect_catches_only_OSError sample_connection
               [ConnectionRefusedError] ConnectionAbortedError
               [Established 1%nat])) eq_refl Hes eq_refl)).
    reflexivity.
  - rewrite (proj1 (proj2 (proj2 (reconnect_catches_only_OSError sample_connection
               [ConnectionRefusedError] gaierror
               [Established 1%nat])) eq_refl Hes eq_refl)).
    reflexivity.
Defined.

(** C9: when [unixsocket] is not [None], every connection request of a run
    of the loop is [create_unix_connection] with that path, there is at
    least one, and [create_connection] with the stored host and port (or
    any other) is never called. *)
Theorem reconnect_unixsocket_only {operation : Type}
    (c : Connection operation) (path : string) (script : list attempt_result) :
  unixsocket c = Some path ->
  let r := _reconnect c script in
  Forall (fun ev => ev = CreateUnixConnection path) (connects (run_trace r))
  /\ In (CreateUnixConnection path) (run_trace r)
  /\ (forall h p, ~ In (CreateConnection h p) (run_trace r))
  /\ unixsocket (run_self r) = Some path.
Proof.
  intros Hu. cbn zeta.
  destruct (reconnect_endpoint script c) as (_ & _ & Hu' & Hall & Hin).
  assert (Hreq : connect_request c = CreateUnixConnection path).
  { unfold connect_request. rewrite Hu. reflexivity. }
  rewrite Hreq in Hall, Hin.
  split; [exact Hall|]. split; [exact Hin|]. split; [|congruence].
  intros h p Hbad. apply in_connects in Hbad. cbn beta iota in Hbad.
  rewrite Forall_forall in Hall. apply list_elem_of_In, Hall in Hbad.
  discriminate Hbad.
Qed.

Lemma reconnect_unixsocket_only_witness :
  let c := {| host := "localhost"; port := 6379;
              unixsocket := Some "/tmp/redis.sock";
              _loop := get_event_loop; _retry_interval := PyFloat 0.5;
              protocol := sample_protocol |} in
  let r := _reconnect c [Failed FileNotFoundError; Established 1%nat] in
  unixsocket c = Some "/tmp/redis.sock"
  /\ Forall (fun ev => ev = CreateUnixConnection "/tmp/redis.sock")
       (connects (run_trace r))
  /\ In (CreateUnixConnection "/tmp/redis.sock") (run_trace r)
  /\ (forall h p, ~ In (CreateConnection h p) (run_trace r))
  /\ unixsocket (run_self r) = Some "/tmp/redis.sock".
Proof.
  split; [reflexivity|].
  apply (reconnect_unixsocket_only
           {| host := "localhost"; port := 6379;
              unixsocket := Some "/tmp/redis.sock";
              _loop := get_event_loop; _retry_interval := PyFloat 0.5;
              protocol := sample_protocol |}
           "/tmp/redis.sock" [Failed FileNotFoundError; Established 1%nat]).
  reflexivity.
Defined.

(** From an interval of the schedule the loop raises nothing of its own:
    what it raises is what an attempt raised, and not an [OSError]. *)
Lemma reconnect_raised {operation : Type} (script : list attempt_result) :
  forall (c : Connection operation) (k : nat) (e : exn),
  _retry_interval c = backoff_after k ->
  run_outcome (_reconnect c script) = Raised e ->
  In (Failed e) script /\ isinstance_OSError e = false.
Proof.
  induction script as [|a script IH]; intros c k e Hk; cbn [_reconnect].
  - discriminate.
  - destruct a as [t|e0]; [discriminate|].
    destruct (isinstance_OSError e0) eqn:He0.
    + destruct (on_failure_schedule c k Hk) as [secs ->].
      cbn [run_outcome]. intros Hr.
      destruct (IH (set_retry_interval c (backoff_after (S k))) (S k) e eq_refl Hr)
        as [Hin Hno].
      split; [right; exact Hin | exact Hno].
    + cbn [run_outcome]. intros [= <-]. split; [left; reflexivity | exact He0].
Qed.

(** ** [create]: the claims *)

(** C8, as stated, fails: a call that gives a host, a port and a unix socket
    path is accepted, and the connection stores all three. *)
Lemma create_both_forms_counterexample :
  run_outcome
    (create "localhost" 6379 None 0 None true (Some "/tmp/redis.sock") None
       sample_operations [Established 1%nat])
  = Returned
  /\ host (run_self
             (create "localhost" 6379 None 0 None true (Some "/tmp/redis.sock")
                None sample_operations [Established 1%nat]))
     = "localhost"
  /\ port (run_self
             (create "localhost" 6379 None 0 None true (Some "/tmp/redis.sock")
                None sample_operations [Established 1%nat]))
     = 6379
  /\ unixsocket
       (run_self
          (create "localhost" 6379 None 0 None true (Some "/tmp/redis.sock")
             None sample_operations [Established 1%nat]))
     = Some "/tmp/redis.sock".
Proof. repeat split. Qed.

(** C8 (as the code has it): [create] checks nothing about the endpoint.  It
    stores host, port and unix socket path as given, whatever they are; it
    raises only what a connection attempt raised, and returns as soon as an
    attempt succeeds.  One form is used for connecting: every request goes
    to the unix socket path when one is given, to host and port otherwise. *)
Theorem create_accepts_any_endpoint {operation : Type}
    (h : string) (p : Z) (password : option string) (db : Z)
    (encoder : option string) (auto_reconnect : bool)
    (u : option string) (loop : option event_loop)
    (commands : gmap string operation) (script : list attempt_result) :
  let r := create h p password db encoder auto_reconnect u loop commands script in
  host (run_self r) = h
  /\ port (run_self r) = p
  /\ unixsocket (run_self r) = u
  /\ Forall (fun ev => ev = match u with
                           | Some path => CreateUnixConnection path
                           | None => CreateConnection h p
                           end) (connects (run_trace r))
  /\ (forall t rest, script = Established t :: rest -> run_outcome r = Returned)
  /\ (forall e, run_outcome r = Raised e ->
                In (Failed e) script /\ isinstance_OSError e = false).
Proof.
  unfold create. cbn zeta. set (c := Build_Connection _ _ _ _ _ _).
  destruct (reconnect_endpoint script c) as (Hh & Hp & Hu & Hall & _).
  split; [exact Hh|]. split; [exact Hp|]. split; [exact Hu|].
  split; [exact Hall|]. split.
  - intros t rest ->. reflexivity.
  - intros e. apply (reconnect_raised script c 0 e). reflexivity.
Qed.

(** * Command forwarding *)

Section Facade.
Context {operation : Type}.
Variable _all_commands : list string.
Implicit Types (c : Connection operation) (name : string).

Lemma is_command_true name : is_command _all_commands name = true <-> name ∈ _all_commands.
Proof. unfold is_command. apply bool_decide_eq_true. Qed.

Lemma is_command_false name : is_command _all_commands name = false <-> name ∉ _all_commands.
Proof. unfold is_command. apply bool_decide_eq_false. Qed.

(** C4: for a name that is not in [_all_commands], [__getattr__] raises
    [AttributeError] and asks nothing of the protocol object. *)
Theorem getattr_unknown_name_raises c name :
  name ∉ _all_commands ->
  __getattr__ _all_commands c name = (Raise AttributeError, []).
Proof.
  intros Hn. unfold __getattr__.
  apply is_command_false in Hn. rewrite Hn. reflexivity.
Qed.

(** C5: for a name in [_all_commands], [__getattr__] yields what
    [getattr(self.protocol, name)] yields, by that one lookup; so calling the
    result with any arguments is calling the protocol object's operation with
    them. *)
Theorem getattr_forwards_commands c name :
  name ∈ _all_commands ->
  (__getattr__ _all_commands c name
   = (getattr_protocol (protocol c) name, [ProtocolGetattr name]))
  /\ forall (A B : Type) (call : operation -> A -> B) (args : A),
       (fun op => call op args) <$> fst (__getattr__ _all_commands c name)
       = (fun op => call op args) <$> getattr_protocol (protocol c) name.
Proof.
  intros Hin. apply is_command_true in Hin.
  assert (Hg : __getattr__ _all_commands c name
               = (getattr_protocol (protocol c) name, [ProtocolGetattr name])).
  { unfold __getattr__. rewrite Hin. reflexivity. }
  split; [exact Hg|]. intros A B call args. rewrite Hg. reflexivity.
Qed.

End Facade.

Lemma getattr_unknown_name_raises_witness :
  ("transport_write" ∉ sample_commands)
  /\ __getattr__ sample_commands sample_connection "transport_write"
     = (Raise AttributeError, []).
Proof.
  assert (Hn : "transport_write" ∉ sample_commands).
  { apply (bool_decide_eq_false_1 ("transport_write" ∈ sample_commands)). reflexivity. }
  split; [exact Hn|].
  exact (getattr_unknown_name_raises sample_commands sample_connection
           "transport_write" Hn).
Defined.

Lemma getattr_forwards_commands_witness :
  ("get" ∈ sample_commands)
  /\ __getattr__ sample_commands sample_connection "get"
     = (Ok "RedisProtocol.get", [ProtocolGetattr "get"]).
Proof.
  assert (Hin : "get" ∈ sample_commands).
  { apply (bool_decide_eq_true_1 ("get" ∈ sample_commands)). reflexivity. }
  split; [exact Hin|].
  exact (proj1 (getattr_forwards_commands sample_commands sample_connection
                  "get" Hin)).
Defined.

(** * Transport loss *)

Section TransportLoss.
Context {operation : Type}.
Implicit Types (w : world operation).

Lemma loop_steps_idle w n : scheduled w = [] -> loop_steps n w = w.
Proof.
  intros Hs. induction n as [|n IH]; cbn [loop_steps]; [reflexivity|].
  unfold loop_step. rewrite Hs. exact IH.
Qed.

(** C7: the closure [connection_lost] schedules [_reconnect] exactly when
    [auto_reconnect] is true.  So after a transport loss on an idle loop:
    with [auto_reconnect], the loop itself runs [_reconnect], and once the
    endpoint accepts a connection the new transport is bound; without it,
    nothing is scheduled, and however long the loop runs no connection is
    attempted and no transport is bound. *)
Theorem connection_lost_schedules_iff_auto_reconnect w (auto_reconnect : bool)
    (es : list exn) (t : transport) (rest : list attempt_result) :
  connection_lost_callback (protocol (manager w))
    = connection_lost_closure auto_reconnect ->
  scheduled w = [] ->
  _retry_interval (manager w) = initial_interval ->
  network w = map Failed es ++ Established t :: rest ->
  retried es ->
  (forall w0, scheduled (connection_lost auto_reconnect w0)
              = scheduled w0 ++ (if auto_reconnect then [reconnect_task] else []))
  /\ (scheduled (transport_lost w) = [reconnect_task] <-> auto_reconnect = true)
  /\ transport_of (manager (transport_lost w)) = None
  /\ (auto_reconnect = true ->
      transport_of (manager (loop_step (transport_lost w))) = Some t
      /\ scheduled (loop_step (transport_lost w)) = []
      /\ network (loop_step (transport_lost w)) = rest)
  /\ (auto_reconnect = false ->
      forall n,
        transport_of (manager (loop_steps n (transport_lost w))) = None
        /\ scheduled (loop_steps n (transport_lost w)) = []
        /\ history (loop_steps n (transport_lost w)) = history w
        /\ network (loop_steps n (transport_lost w)) = network w).
Proof.
  intros Hcb Hs H0 Hnet Hes.
  assert (Hlost : transport_lost w
                  = connection_lost auto_reconnect
                      {| manager := set_protocol (manager w)
                                      (transport_closed (protocol (manager w)));
                         scheduled := scheduled w; network := network w;
                         history := history w |}).
  { unfold transport_lost. cbn [transport_closed connection_lost_callback].
    rewrite Hcb. reflexivity. }
  split.
  { intros w0. unfold connection_lost. destruct auto_reconnect; cbn [scheduled].
    - reflexivity.
    - rewrite app_nil_r. reflexivity. }
  split.
  { rewrite Hlost. unfold connection_lost.
    destruct auto_reconnect; cbn [scheduled]; rewrite Hs; cbn [app].
    - split; reflexivity.
    - split; discriminate. }
  split.
  { rewrite Hlost. unfold connection_lost. destruct auto_reconnect; reflexivity. }
  split.
  - intros ->. rewrite Hlost. unfold connection_lost, loop_step.
    cbn [scheduled manager network history]. rewrite Hs, Hnet. cbn [app].
    destruct (reconnect_retried es
                (set_protocol (manager w) (transport_closed (protocol (manager w))))
                0 (Established t :: rest) Hes H0) as (_ & Hself & Hrest & _).
    rewrite Hself, Hrest. repeat split; reflexivity.
  - intros -> n. rewrite Hlost. unfold connection_lost.
    rewrite loop_steps_idle by exact Hs.
    repeat split; [exact Hs].
Qed.

End TransportLoss.

Lemma connection_lost_schedules_iff_auto_reconnect_witness :
  transport_of (manager (sample_world true)) = Some 3%nat
  /\ scheduled (transport_lost (sample_world true)) = [reconnect_task]
  /\ transport_of (manager (loop_step (transport_lost (sample_world true))))
     = Some 4%nat
  /\ scheduled (transport_lost (sample_world false)) = []
  /\ forall n,
       transport_of (manager (loop_steps n (transport_lost (sample_world false))))
       = None.
Proof.
  assert (Hes : retried [ConnectionRefusedError]) by (repeat constructor).
  pose proof (connection_lost_schedules_iff_auto_reconnect (sample_world true) true
                [ConnectionRefusedError] 4%nat [] eq_refl eq_refl eq_refl eq_refl Hes)
    as (_ & Hiff & _ & Hon & _).
  pose proof (connection_lost_schedules_iff_auto_reconnect (sample_world false) false
                [ConnectionRefusedError] 4%nat [] eq_refl eq_refl eq_refl eq_refl Hes)
    as (_ & _ & _ & _ & Hoff).
  split; [reflexivity|].
  split; [apply Hiff; reflexivity|].
  split; [apply Hon; reflexivity|].
  split; [reflexivity|].
  intros n. apply (Hoff eq_refl n).
Defined.

(** * Further properties of the backoff *)

Lemma three_halves_power_ge_120 (n : nat) :
  (12 <= n)%nat -> (120 <= Qpower (3 # 2) (Z.of_nat n))%Q.
Proof.
  intros Hn. replace n with (12 + (n - 12))%nat by lia.
  induction (n - 12)%nat as [|m IH].
  - vm_compute. discriminate.
  - replace (Z.of_nat (12 + S m)) with (Z.of_nat (12 + m) + 1)%Z by lia.
    rewrite Qpower_plus by discriminate.
    change (Qpower (3 # 2) 1) with (3 # 2).
    apply Qle_trans with (Qpower (3 # 2) (Z.of_nat (12 + m)) * 1)%Q.
    + rewrite Qmult_1_r. exact IH.
    + assert (H0 : (0 <= Qpower (3 # 2) (Z.of_nat (12 + m)))%Q).
      { apply Qle_trans with 120%Q; [discriminate | exact IH]. }
      rewrite !(Qmult_comm (Qpower (3 # 2) (Z.of_nat (12 + m)))).
      apply Qmult_le_compat_r; [discriminate | exact H0].
Qed.

Lemma backoff_after_value (n : nat) :
  exists q, pynum_value (backoff_after n) = Some q
            /\ (q == backoff_closed_form n)%Q.
Proof.
  do 12 (destruct n as [|n];
         [eexists; split; [vm_compute; reflexivity | vm_compute; reflexivity]|]).
  rewrite backoff_after_ceiling by lia.
  exists (inject_Z 60). split; [reflexivity|].
  unfold backoff_closed_form. symmetry. apply Q.min_l.
  set (k := S (S (S (S (S (S (S (S (S (S (S (S n)))))))))))).
  assert (H120 : (120 <= Qpower (3 # 2) (Z.of_nat k))%Q)
    by (apply three_halves_power_ge_120; unfold k; lia).
  apply Qle_trans with ((1 # 2) * 120)%Q; [discriminate|].
  rewrite !(Qmult_comm (1 # 2)).
  apply Qmult_le_compat_r; [exact H120 | discriminate].
Qed.

(** X1: starting from 0.5, the interval after [n] increases is exactly the
    rational number [min(60, 0.5 * 1.5 ^ n)]: no product below the ceiling
    is rounded. *)
Theorem backoff_interval_closed_form {operation : Type}
    (c : Connection operation) (n : nat) :
  _retry_interval c = initial_interval ->
  exists c' q,
    increase_times n c = Ok c'
    /\ pynum_value (_retry_interval c') = Some q
    /\ (q == backoff_closed_form n)%Q.
Proof.
  intros H0. destruct (backoff_after_value n) as (q & Hq & Hcf).
  exists (set_retry_interval c (backoff_after n)), q.
  split; [apply increase_times_initial; exact H0|].
  split; [exact Hq | exact Hcf].
Qed.

Lemma backoff_interval_closed_form_witness :
  _retry_interval sample_connection = initial_interval
  /\ exists c' q,
       increase_times 5 sample_connection = Ok c'
       /\ pynum_value (_retry_interval c') = Some q
       /\ (q == backoff_closed_form 5)%Q.
Proof.
  split; [reflexivity|].
  apply (backoff_interval_closed_form sample_connection 5). reflexivity.
Defined.

(** X2: whatever the interval holds, a [float] (NaN and the infinities
    included) or the [int] 60, an increase does not raise, changes nothing
    but the interval, and stores a value that is at most 60; so the value
    stored is never NaN and never above the ceiling. *)
Theorem increase_never_above_ceiling {operation : Type}
    (c : Connection operation) :
  interval_value (_retry_interval c) ->
  exists v,
    _increase_retry_interval c = Ok (set_retry_interval c v)
    /\ py_le v (PyInt 60) = true
    /\ interval_value v.
Proof.
  intros Hv. rewrite increase_retry_interval_next.
  destruct (_retry_interval c) as [z|f]; cbn [interval_value] in Hv.
  - subst z. exists (PyInt 60). rewrite next_interval_ceiling.
    repeat split.
  - unfold next_interval. cbn [py_mul mbind result_bind].
    exists (py_min (PyInt 60) (PyFloat (1.5 * f))).
    split; [reflexivity|]. unfold py_min. cbn [py_lt].
    destruct (float_compare_int (1.5 * f) 60) as [[| |]|] eqn:Hc;
      cbn [py_le interval_value]; try (split; [reflexivity | reflexivity]).
    rewrite Hc. split; [reflexivity | exact I].
Qed.

Lemma increase_never_above_ceiling_witness :
  interval_value (_retry_interval (set_retry_interval sample_connection (PyFloat nan)))
  /\ exists v,
       _increase_retry_interval (set_retry_interval sample_connection (PyFloat nan))
       = Ok (set_retry_interval
               (set_retry_interval sample_connection (PyFloat nan)) v)
       /\ py_le v (PyInt 60) = true
       /\ interval_value v.
Proof.
  split; [exact I|].
  apply (increase_never_above_ceiling
           (set_retry_interval sample_connection (PyFloat nan))).
  exact I.
Defined.

(** * Further properties of the reconnect loop *)

Section ReconnectRuns.
Context {operation : Type}.
Implicit Types (c : Connection operation) (script rest : list attempt_result).
Implicit Types (es : list exn) (k n : nat) (t : transport).

Lemma on_failure_events c c' (evs : list event) :
  on_failure c = (c', Ok evs) ->
  exists secs, evs = [Log INFO (retry_message secs); Sleep (_retry_interval c')]
               /\ _loop c' = _loop c.
Proof.
  unfold on_failure, _increase_retry_interval.
  destruct (py_mul (PyFloat 1.5) (_retry_interval c)) as [y|]; cbn [mbind result_bind];
    [|discriminate].
  unfold _get_retry_interval. cbn [_retry_interval set_retry_interval].
  destruct (int_of_pynum _) as [secs|]; cbn [mbind result_bind]; [|discriminate].
  intros [= <- <-]. exists secs. split; reflexivity.
Qed.

Lemma on_failure_loop c c' (res : result (list event)) :
  on_failure c = (c', res) -> _loop c' = _loop c.
Proof.
  unfold on_failure, _increase_retry_interval.
  destruct (py_mul (PyFloat 1.5) (_retry_interval c)) as [y|]; cbn [mbind result_bind];
    intros [= <- _]; reflexivity.
Qed.

Lemma steps_app (tr1 tr2 : list event) : steps (tr1 ++ tr2) = steps tr1 ++ steps tr2.
Proof. apply omap_app. Qed.

Lemma steps_attempt_prefix c : steps (attempt_prefix c) = [Attempt].
Proof. unfold attempt_prefix, connect_request. destruct (unixsocket c); reflexivity. Qed.

(** X3: in every run of the loop, from any state and against any outcomes,
    attempts and sleeps alternate, beginning and ending with an attempt:
    the loop never makes two attempts without a sleep in between, and never
    sleeps twice in a row. *)
Theorem reconnect_attempts_and_sleeps_alternate c script :
  steps (run_trace (_reconnect c script))
  = alternating (length (sleeps (run_trace (_reconnect c script)))).
Proof.
  revert c. induction script as [|a script IH]; intros c; cbn [_reconnect].
  - cbn [run_trace]. rewrite steps_attempt_prefix, sleeps_attempt_prefix. reflexivity.
  - destruct a as [t|e].
    + cbn [run_trace]. rewrite steps_attempt_prefix, sleeps_attempt_prefix. reflexivity.
    + destruct (isinstance_OSError e).
      * destruct (on_failure c) as [c' [evs|e']] eqn:Hf; cbn [run_trace].
        -- apply on_failure_events in Hf as (secs & -> & _).
           rewrite !steps_app, !sleeps_app, steps_attempt_prefix,
             sleeps_attempt_prefix, IH.
           reflexivity.
        -- rewrite steps_attempt_prefix, sleeps_attempt_prefix. reflexivity.
      * cbn [run_trace].
        rewrite steps_attempt_prefix, sleeps_attempt_prefix. reflexivity.
Qed.

(** The sleeps of a run that starts on the schedule are the next entries of
    the schedule, one per retried failure at most. *)
Lemma reconnect_sleeps_on_schedule script : forall c k,
  _retry_interval c = backoff_after k ->
  exists n, (n <= length script)%nat
            /\ sleeps (run_trace (_reconnect c script))
               = map backoff_after (seq (S k) n).
Proof.
  induction script as [|a script IH]; intros c k Hk; cbn [_reconnect].
  - exists 0%nat. cbn [run_trace]. rewrite sleeps_attempt_prefix. split; [lia | reflexivity].
  - destruct a as [t|e].
    + exists 0%nat. cbn [run_trace]. rewrite sleeps_attempt_prefix.
      split; [lia | reflexivity].
    + destruct (isinstance_OSError e).
      * destruct (on_failure_schedule c k Hk) as [secs ->]. cbn [run_trace].
        destruct (IH (set_retry_interval c (backoff_after (S k))) (S k) eq_refl)
          as (n & Hn & Hs).
        exists (S n). split; [cbn [length]; lia|].
        rewrite !sleeps_app, sleeps_attempt_prefix, Hs. reflexivity.
      * exists 0%nat. cbn [run_trace]. rewrite sleeps_attempt_prefix.
        split; [lia | reflexivity].
Qed.

Lemma backoff_after_first_wait (j : nat) :
  py_le (PyFloat 0.75) (backoff_after (S j)) = true.
Proof.
  do 11 (destruct j as [|j]; [vm_compute; reflexivity|]).
  rewrite backoff_after_ceiling by lia. vm_compute. reflexivity.
Qed.

(** X4: whatever the outcomes of the attempts, a run of the loop that starts
    from the initial interval sleeps the intervals of the schedule in order,
    at most one per attempt, and every sleep lasts at least 0.75 s and at
    most 60 s. *)
Theorem reconnect_sleeps_bounded c script :
  _retry_interval c = initial_interval ->
  let waits := sleeps (run_trace (_reconnect c script)) in
  (exists n, (n <= length script)%nat /\ waits = map backoff_after (seq 1 n))
  /\ Forall (fun i => py_le (PyFloat 0.75) i = true /\ py_le i (PyInt 60) = true)
       waits.
Proof.
  intros H0. cbn zeta.
  destruct (reconnect_sleeps_on_schedule script c 0 H0) as (n & Hn & Hs).
  split; [exists n; split; assumption|].
  rewrite Hs. apply Forall_forall. intros i Hi.
  apply list_elem_of_In, in_map_iff in Hi as (j & <- & Hj).
  apply in_seq in Hj. destruct j as [|j]; [lia|].
  split; [apply backoff_after_first_wait | apply backoff_after_upper].
Qed.

End ReconnectRuns.

Lemma reconnect_sleeps_bounded_witness :
  _retry_interval sample_connection = initial_interval
  /\ Forall (fun i => py_le (PyFloat 0.75) i = true /\ py_le i (PyInt 60) = true)
       (sleeps (run_trace
                  (_reconnect sample_connection
                     [Failed OSError; Failed TimeoutError;
                      Failed KeyError; Established 2%nat]))).
Proof.
  split; [reflexivity|].
  exact (proj2 (reconnect_sleeps_bounded sample_connection
                  [Failed OSError; Failed TimeoutError;
                   Failed KeyError; Established 2%nat]
                  eq_refl)).
Defined.

Section Endpoint.
Context {operation : Type}.
Implicit Types (c : Connection operation) (script rest : list attempt_result).
Implicit Types (es : list exn) (t : transport).

Lemma reconnect_loop_field script : forall c,
  _loop (run_self (_reconnect c script)) = _loop c.
Proof.
  induction script as [|a script IH]; intros c; cbn [_reconnect]; [reflexivity|].
  destruct a as [t|e]; [reflexivity|].
  destruct (isinstance_OSError e); [|reflexivity].
  destruct (on_failure c) as [c' [evs|e']] eqn:Hf; cbn [run_self];
    apply on_failure_loop in Hf; [rewrite IH|]; exact Hf.
Qed.

(** X5: no run of the loop, whatever its outcome, assigns the endpoint or
    the event loop of the connection: host, port, unix socket path and
    [_loop] are afterwards what they were before. *)
Theorem reconnect_keeps_endpoint c script :
  host (run_self (_reconnect c script)) = host c
  /\ port (run_self (_reconnect c script)) = port c
  /\ unixsocket (run_self (_reconnect c script)) = unixsocket c
  /\ _loop (run_self (_reconnect c script)) = _loop c.
Proof.
  destruct (reconnect_endpoint script c) as (Hh & Hp & Hu & _).
  repeat split; [exact Hh | exact Hp | exact Hu | apply reconnect_loop_field].
Qed.

(** X6: when [unixsocket] is [None], every connection request of a run of
    the loop is [create_connection] with the stored host and port, there is
    at least one, and [create_unix_connection] is never called. *)
Theorem reconnect_tcp_only c script :
  unixsocket c = None ->
  let r := _reconnect c script in
  Forall (fun ev => ev = CreateConnection (host c) (port c)) (connects (run_trace r))
  /\ In (CreateConnection (host c) (port c)) (run_trace r)
  /\ (forall path, ~ In (CreateUnixConnection path) (run_trace r)).
Proof.
  intros Hu. cbn zeta.
  destruct (reconnect_endpoint script c) as (_ & _ & _ & Hall & Hin).
  assert (Hreq : connect_request c = CreateConnection (host c) (port c)).
  { unfold connect_request. rewrite Hu. reflexivity. }
  rewrite Hreq in Hall, Hin.
  split; [exact Hall|]. split; [exact Hin|].
  intros path Hbad. apply in_connects in Hbad. cbn beta iota in Hbad.
  rewrite Forall_forall in Hall. apply list_elem_of_In, Hall in Hbad.
  discriminate Hbad.
Qed.

(** X7: the loop has no retry limit.  As long as every attempt fails with
    an [OSError], it neither returns nor raises: after [n] such failures it
    has slept the first [n] intervals of the schedule, has made attempt
    [n + 1], holds the [n]-th interval, and has bound no transport. *)
Theorem reconnect_never_gives_up c es :
  _retry_interval c = initial_interval ->
  retried es ->
  let r := _reconnect c (map Failed es) in
  run_outcome r = Pending
  /\ sleeps (run_trace r) = map backoff_after (seq 1 (length es))
  /\ length (connects (run_trace r)) = S (length es)
  /\ _retry_interval (run_self r) = backoff_after (length es)
  /\ transport_of (run_self r) = transport_of c.
Proof.
  intros H0 Hes. cbn zeta.
  destruct (reconnect_retried es c 0 [] Hes H0) as (Ho & Hself & _ & Hs & Hc).
  rewrite app_nil_r in Ho, Hself, Hs, Hc.
  rewrite Ho, Hself, Hs, Hc. cbn [_reconnect run_outcome run_self run_trace].
  rewrite sleeps_attempt_prefix, connects_attempt_prefix, app_nil_r.
  rewrite length_app, length_replicate. cbn [length].
  repeat split. lia.
Qed.

(** X8: a reconnect that follows an earlier successful one starts the
    backoff afresh and binds the newest transport: after [es1] retried
    failures and a success, a second run that meets [es2] retried failures
    and a success sleeps the first intervals of the schedule again, from
    0.75 s on, and leaves the second transport bound. *)
Theorem reconnect_twice_restarts_backoff c es1 es2 (t1 t2 : transport) rest :
  _retry_interval c = initial_interval ->
  retried es1 ->
  retried es2 ->
  let r1 := _reconnect c (map Failed es1 ++ Established t1
                          :: map Failed es2 ++ Established t2 :: rest) in
  let r2 := _reconnect (run_self r1) (run_rest r1) in
  run_outcome r1 = Returned
  /\ transport_of (run_self r1) = Some t1
  /\ run_outcome r2 = Returned
  /\ sleeps (run_trace r2) = map backoff_after (seq 1 (length es2))
  /\ transport_of (run_self r2) = Some t2
  /\ _retry_interval (run_self r2) = PyFloat 0.5
  /\ run_rest r2 = rest.
Proof.
  intros H0 Hes1 Hes2. cbn zeta.
  destruct (reconnect_retried es1 c 0
              (Established t1 :: map Failed es2 ++ Established t2 :: rest) Hes1 H0)
    as (Ho1 & Hself1 & Hrest1 & _).
  cbn [_reconnect run_outcome run_self run_rest] in Ho1, Hself1, Hrest1.
  rewrite Ho1, Hself1, Hrest1.
  split; [reflexivity|]. split; [reflexivity|].
  match goal with
  | |- context [_reconnect ?c1 (map Failed es2 ++ ?s)] =>
      destruct (reconnect_retried es2 c1 0 s Hes2 eq_refl)
        as (Ho2 & Hself2 & Hrest2 & Hs2 & _)
  end.
  rewrite Ho2, Hself2, Hrest2, Hs2.
  cbn [_reconnect run_outcome run_self run_rest run_trace].
  rewrite sleeps_attempt_prefix, app_nil_r.
  repeat split.
Qed.

End Endpoint.

Lemma reconnect_tcp_only_witness :
  unixsocket sample_connection = None
  /\ Forall (fun ev => ev = CreateConnection "localhost" 6379)
       (connects (run_trace
                    (_reconnect sample_connection
                       [Failed ConnectionResetError; Established 1%nat])))
  /\ (forall path,
        ~ In (CreateUnixConnection path)
            (run_trace (_reconnect sample_connection
                          [Failed ConnectionResetError; Established 1%nat]))).
Proof.
  split; [reflexivity|].
  pose proof (reconnect_tcp_only sample_connection
                [Failed ConnectionResetError; Established 1%nat] eq_refl)
    as (Hall & _ & Hno).
  split; [exact Hall | exact Hno].
Defined.

Lemma reconnect_never_gives_up_witness :
  _retry_interval sample_connection = initial_interval
  /\ retried (replicate 20 ConnectionRefusedError)
  /\ run_outcome
       (_reconnect sample_connection (map Failed (replicate 20 ConnectionRefusedError)))
     = Pending
  /\ _retry_interval
       (run_self
          (_reconnect sample_connection
             (map Failed (replicate 20 ConnectionRefusedError))))
     = PyInt 60.
Proof.
  assert (Hes : retried (replicate 20 ConnectionRefusedError))
    by (repeat constructor).
  pose proof (reconnect_never_gives_up sample_connection
                (replicate 20 ConnectionRefusedError) eq_refl Hes)
    as (Ho & _ & _ & Hi & _).
  split; [reflexivity|]. split; [exact Hes|].
  split; [exact Ho | exact Hi].
Defined.

Lemma reconnect_twice_restarts_backoff_witness :
  _retry_interval sample_connection = initial_interval
  /\ retried [TimeoutError; TimeoutError; TimeoutError]
  /\ retried [ConnectionRefusedError]
  /\ sleeps
       (run_trace
          (_reconnect
             (run_self
                (_reconnect sample_connection
                   (map Failed [TimeoutError; TimeoutError; TimeoutError]
                    ++ Established 1%nat
                    :: map Failed [ConnectionRefusedError]
                    ++ Established 2%nat :: [])))
             (run_rest
                (_reconnect sample_connection
                   (map Failed [TimeoutError; TimeoutError; TimeoutError]
                    ++ Established 1%nat
                    :: map Failed [ConnectionRefusedError]
                    ++ Established 2%nat :: [])))))
     = [PyFloat 0.75].
Proof.
  assert (Hes1 : retried [TimeoutError; TimeoutError; TimeoutError])
    by (repeat constructor).
  assert (Hes2 : retried [ConnectionRefusedError]) by (repeat constructor).
  pose proof (reconnect_twice_restarts_backoff sample_connection
                [TimeoutError; TimeoutError; TimeoutError]
                [ConnectionRefusedError] 1%nat 2%nat [] eq_refl Hes1 Hes2)
    as (_ & _ & _ & Hs & _).
  split; [reflexivity|]. split; [exact Hes1|]. split; [exact Hes2|].
  exact Hs.
Defined.

(** * [__repr__] *)

Lemma string_forallb_app (p : ascii -> bool) (s1 s2 : string) :
  string_forallb p (s1 +:+ s2) = string_forallb p s1 && string_forallb p s2.
Proof.
  induction s1 as [|a s1 IH]; [reflexivity|].
  change (String a s1 +:+ s2) with (String a (s1 +:+ s2)).
  cbn [string_forallb]. rewrite IH, andb_assoc. reflexivity.
Qed.

Lemma repr_char_printable (quote ch : ascii) :
  printable_char quote = true ->
  string_forallb printable_char (repr_char quote ch) = true.
Proof.
  intros Hq. unfold repr_char.
  destruct (Ascii.eqb ch quote) eqn:Heq.
  - apply Ascii.eqb_eq in Heq. subst ch. cbn [orb string_forallb].
    rewrite Hq. reflexivity.
  - clear Hq Heq. cbn [orb].
    destruct ch as [[] [] [] [] [] [] [] []]; vm_compute; reflexivity.
Qed.

Lemma repr_str_printable (s : string) :
  string_forallb printable_char (repr_str s) = true.
Proof.
  unfold repr_str. cbn zeta.
  assert (Hq : printable_char (repr_quote s) = true).
  { unfold repr_quote. destruct (_ && _); reflexivity. }
  cbn [string_forallb]. rewrite Hq, string_forallb_app. cbn [string_forallb andb].
  rewrite Hq, andb_true_r.
  generalize (repr_quote s) Hq. intros q Hq'. clear Hq.
  induction s as [|a s IH]; [reflexivity|].
  cbn [repr_body]. rewrite string_forallb_app, IH, repr_char_printable by exact Hq'.
  reflexivity.
Qed.

Lemma pretty_N_go_forallb (p : ascii -> bool) (x : N) :
  (forall d, p (pretty_N_char d) = true) ->
  forall s, string_forallb p s = true -> string_forallb p (pretty_N_go x s) = true.
Proof.
  intros Hp. induction (N.lt_wf_0 x) as [x _ IH]. intros s Hs.
  destruct (N.eq_dec x 0%N) as [->|Hx].
  - rewrite pretty_N_go_0. exact Hs.
  - rewrite pretty_N_go_step by lia. apply IH.
    + apply N.div_lt; lia.
    + cbn [string_forallb]. rewrite Hp, Hs. reflexivity.
Qed.

(** The decimal writing of an [int] is made of digits and a minus sign. *)
Lemma pretty_Z_forallb (p : ascii -> bool) (z : Z) :
  (forall d, p (pretty_N_char d) = true) -> p "-"%char = true ->
  string_forallb p (pretty z) = true.
Proof.
  intros Hp Hminus.
  assert (HN : forall q, string_forallb p (pretty (Npos q)) = true).
  { intros q. unfold pretty, pretty_N. destruct (decide (Npos q = 0%N)); [discriminate|].
    apply pretty_N_go_forallb; [exact Hp | reflexivity]. }
  destruct z as [|q|q].
  - change (pretty 0) with "0". cbn [string_forallb].
    change "0"%char with (pretty_N_char 0). rewrite Hp. reflexivity.
  - apply HN.
  - unfold pretty, pretty_Z. rewrite string_forallb_app.
    change (pretty q) with (pretty (Npos q)). rewrite HN.
    cbn [string_forallb]. rewrite Hminus. reflexivity.
Qed.

Lemma pretty_N_char_cases (p : ascii -> bool) :
  p "0"%char = true -> p "1"%char = true -> p "2"%char = true ->
  p "3"%char = true -> p "4"%char = true -> p "5"%char = true ->
  p "6"%char = true -> p "7"%char = true -> p "8"%char = true ->
  p "9"%char = true ->
  forall d, p (pretty_N_char d) = true.
Proof.
  intros H0 H1 H2 H3 H4 H5 H6 H7 H8 H9 d.
  destruct d as [|q]; [exact H0|].
  do 4 (destruct q as [q|q|]; try assumption).
Qed.

Lemma pretty_Z_printable (z : Z) :
  string_forallb printable_char (pretty z) = true.
Proof.
  apply pretty_Z_forallb; [apply pretty_N_char_cases; reflexivity | reflexivity].
Qed.

(** X9: the text [__repr__] returns has printable characters only, whatever
    the host and the unix socket path contain: a control character, a line
    break included, is written as an escape, so the text is one line. *)
Theorem repr_is_printable {operation : Type} (c : Connection operation) :
  string_forallb printable_char (__repr__ c) = true.
Proof.
  unfold __repr__. rewrite !string_forallb_app.
  rewrite repr_str_printable, pretty_Z_printable.
  assert (Hu : string_forallb printable_char (repr_optional_str (unixsocket c)) = true).
  { destruct (unixsocket c) as [path|]; [apply repr_str_printable | reflexivity]. }
  rewrite Hu. reflexivity.
Qed.

(** * Loss and recovery, again and again *)

Section Recovery.
Context {operation : Type}.
Implicit Types (w : world operation) (es : list exn) (t : transport).



End Recovery.


(** * [create], further *)

(** X11: once an attempt succeeds, after any number of retried failures,
    [create] returns a connection that is ready: the transport of that
    attempt is bound, the interval is 0.5, the event loop is the one given
    (the default one when none is), the protocol object is on the same
    loop and holds the password, database, encoder and commands as passed,
    and its transport-lost callback is the closure over the
    [auto_reconnect] given.  On the way [create] slept the first intervals
    of the schedule. *)
Theorem create_returns_ready {operation : Type}
    (h : string) (p : Z) (pw : option string) (database : Z)
    (enc : option string) (auto_reconnect : bool)
    (u : option string) (loop : option event_loop)
    (commands : gmap string operation)
    (es : list exn) (t : transport) (rest : list attempt_result) :
  retried es ->
  let r := create h p pw database enc auto_reconnect u loop commands
             (map Failed es ++ Established t :: rest) in
  run_outcome r = Returned
  /\ run_rest r = rest
  /\ transport_of (run_self r) = Some t
  /\ _retry_interval (run_self r) = PyFloat 0.5
  /\ sleeps (run_trace r) = map backoff_after (seq 1 (length es))
  /\ _loop (run_self r) = match loop with Some l => l | None => get_event_loop end
  /\ protocol_loop (protocol (run_self r)) = _loop (run_self r)
  /\ password (protocol (run_self r)) = pw
  /\ db (protocol (run_self r)) = database
  /\ encoder (protocol (run_self r)) = enc
  /\ operations (protocol (run_self r)) = commands
  /\ connection_lost_callback (protocol (run_self r))
     = connection_lost_closure auto_reconnect.
Proof.
  intros Hes. unfold create. cbn zeta. set (c := Build_Connection _ _ _ _ _ _).
  destruct (reconnect_retried es c 0 (Established t :: rest) Hes eq_refl)
    as (Ho & Hself & Hrest & Hs & _).
  rewrite Ho, Hself, Hrest, Hs.
  cbn [_reconnect run_outcome run_self run_rest run_trace].
  rewrite sleeps_attempt_prefix, app_nil_r. repeat split.
Qed.

Lemma create_returns_ready_witness :
  retried [TimeoutError]
  /\ transport_of
       (run_self (create "redis.example" 6380 None 2 None false None (Some 5%nat)
                    sample_operations
                    (map Failed [TimeoutError] ++ Established 9%nat :: [])))
     = Some 9%nat
  /\ _loop
       (run_self (create "redis.example" 6380 None 2 None false None (Some 5%nat)
                    sample_operations
                    (map Failed [TimeoutError] ++ Established 9%nat :: [])))
     = 5%nat.
Proof.
  assert (Hes : retried [TimeoutError]) by (repeat constructor).
  pose proof (create_returns_ready "redis.example" 6380 None 2 None false None
                (Some 5%nat) sample_operations [TimeoutError] 9%nat [] Hes)
    as (_ & _ & Ht & _ & _ & Hl & _).
  split; [exact Hes|]. split; [exact Ht | exact Hl].
Defined.

(** * [__repr__] identifies the endpoint *)

Lemma string_app_assoc (s1 s2 s3 : string) :
  (s1 +:+ s2) +:+ s3 = s1 +:+ (s2 +:+ s3).
Proof.
  induction s1 as [|a s1 IH]; [reflexivity|].
  change (String a s1 +:+ s2) with (String a (s1 +:+ s2)).
  change (String a (s1 +:+ s2) +:+ s3) with (String a ((s1 +:+ s2) +:+ s3)).
  rewrite IH. reflexivity.
Qed.

Lemma string_app_inv_head (s r1 r2 : string) : s +:+ r1 = s +:+ r2 -> r1 = r2.
Proof.
  induction s as [|a s IH]; [intros H; exact H|].
  change (String a s +:+ ?r) with (String a (s +:+ r)).
  intros [= H]. apply IH. exact H.
Qed.

Lemma repr_quote_cases (s : string) : repr_quote s = squote \/ repr_quote s = dquote.
Proof. unfold repr_quote. destruct (_ && _); [right | left]; reflexivity. Qed.

Lemma unrepr_repr_char (quote ch : ascii) (rest : string) :
  quote = squote \/ quote = dquote ->
  unrepr_char quote (repr_char quote ch +:+ rest) = Some (ch, rest).
Proof.
  intros [-> | ->]; destruct ch as [[] [] [] [] [] [] [] []]; reflexivity.
Qed.

Lemma unrepr_closing_quote (quote : ascii) (rest : string) :
  quote = squote \/ quote = dquote ->
  unrepr_char quote (String quote rest) = None.
Proof. intros [-> | ->]; reflexivity. Qed.

(** What follows a [repr]'d body and its closing quote can be told apart
    from the body. *)
Lemma repr_body_inj (quote : ascii) (s1 : string) : forall s2 r1 r2,
  quote = squote \/ quote = dquote ->
  repr_body quote s1 +:+ String quote r1 = repr_body quote s2 +:+ String quote r2 ->
  s1 = s2 /\ r1 = r2.
Proof.
  induction s1 as [|a s1 IH]; intros s2 r1 r2 Hq Heq.
  - destruct s2 as [|b s2].
    + cbn in Heq. injection Heq as <-. split; reflexivity.
    + exfalso. cbn [repr_body] in Heq. rewrite string_app_assoc in Heq.
      apply (f_equal (unrepr_char quote)) in Heq.
      change (EmptyString +:+ String quote r1) with (String quote r1) in Heq.
      rewrite unrepr_closing_quote, unrepr_repr_char in Heq by exact Hq.
      discriminate Heq.
  - destruct s2 as [|b s2].
    + exfalso. cbn [repr_body] in Heq. rewrite string_app_assoc in Heq.
      apply (f_equal (unrepr_char quote)) in Heq.
      change (EmptyString +:+ String quote r2) with (String quote r2) in Heq.
      rewrite unrepr_closing_quote, unrepr_repr_char in Heq by exact Hq.
      discriminate Heq.
    + cbn [repr_body] in Heq. rewrite !string_app_assoc in Heq.
      apply (f_equal (unrepr_char quote)) in Heq.
      rewrite !unrepr_repr_char in Heq by exact Hq.
      injection Heq as <- Heq.
      destruct (IH s2 r1 r2 Hq Heq) as [<- <-]. split; reflexivity.
Qed.

Lemma repr_str_inj (s1 s2 r1 r2 : string) :
  repr_str s1 +:+ r1 = repr_str s2 +:+ r2 -> s1 = s2 /\ r1 = r2.
Proof.
  unfold repr_str. cbn zeta.
  change (String ?q ?b +:+ ?r) with (String q (b +:+ r)).
  intros Heq. injection Heq as Hq Heq. rewrite <- Hq in Heq.
  rewrite !string_app_assoc in Heq.
  change (String ?q "" +:+ ?r) with (String q r) in Heq.
  apply (repr_body_inj (repr_quote s1) s1 s2 r1 r2 (repr_quote_cases s1) Heq).
Qed.

Lemma comma_split (s1 : string) : forall s2 r1 r2,
  string_forallb not_comma s1 = true ->
  string_forallb not_comma s2 = true ->
  s1 +:+ String "," r1 = s2 +:+ String "," r2 ->
  s1 = s2 /\ r1 = r2.
Proof.
  induction s1 as [|a s1 IH]; intros s2 r1 r2 H1 H2 Heq.
  - destruct s2 as [|b s2].
    + cbn in Heq. injection Heq as <-. split; reflexivity.
    + exfalso. cbn in Heq, H2. injection Heq as <- _. discriminate H2.
  - destruct s2 as [|b s2].
    + exfalso. cbn in Heq, H1. injection Heq as -> _. discriminate H1.
    + change (String ?x ?s +:+ ?r) with (String x (s +:+ r)) in Heq.
      injection Heq as <- Heq.
      cbn [string_forallb] in H1, H2.
      apply andb_prop in H1 as [_ H1]. apply andb_prop in H2 as [_ H2].
      destruct (IH s2 r1 r2 H1 H2 Heq) as [<- <-]. split; reflexivity.
Qed.

Lemma pretty_Z_no_comma (z : Z) : string_forallb not_comma (pretty z) = true.
Proof.
  apply pretty_Z_forallb; [apply pretty_N_char_cases; reflexivity | reflexivity].
Qed.

Lemma repr_optional_str_inj (x1 x2 : option string) (r1 r2 : string) :
  repr_optional_str x1 +:+ r1 = repr_optional_str x2 +:+ r2 -> x1 = x2 /\ r1 = r2.
Proof.
  destruct x1 as [s1|], x2 as [s2|]; cbn [repr_optional_str].
  - intros Heq. apply repr_str_inj in Heq as [<- <-]. split; reflexivity.
  - intros Heq. exfalso. unfold repr_str in Heq. cbn in Heq.
    injection Heq as Hq _. destruct (repr_quote_cases s1) as [H | H];
      rewrite H in Hq; discriminate Hq.
  - intros Heq. exfalso. unfold repr_str in Heq. cbn in Heq.
    injection Heq as Hq _. destruct (repr_quote_cases s2) as [H | H];
      rewrite H in Hq; discriminate Hq.
  - intros Heq. split; [reflexivity|].
    change ("None" +:+ r1) with (String "N" (String "o" (String "n" (String "e" r1)))) in Heq.
    change ("None" +:+ r2) with (String "N" (String "o" (String "n" (String "e" r2)))) in Heq.
    congruence.
Qed.

(** X13: the text of [__repr__] tells the endpoint: two connections have the
    same text exactly when they have the same host, the same port and the
    same unix socket path (or both none).  Quotes, commas and any other
    character in a host or a path cannot make two endpoints read alike. *)
Theorem repr_identifies_endpoint {operation : Type}
    (c1 c2 : Connection operation) :
  __repr__ c1 = __repr__ c2
  <-> host c1 = host c2 /\ port c1 = port c2 /\ unixsocket c1 = unixsocket c2.
Proof.
  split.
  - unfold __repr__. intros Heq.
    apply (string_app_inv_head "Connection(host=") in Heq.
    apply repr_str_inj in Heq as [Hh Heq].
    apply (string_app_inv_head ", port=") in Heq.
    change (", unixsocket=" +:+ ?r) with (String "," (" unixsocket=" +:+ r)) in Heq.
    apply comma_split in Heq as [Hp Heq]; try apply pretty_Z_no_comma.
    apply (inj pretty) in Hp.
    apply (string_app_inv_head " unixsocket=") in Heq.
    apply repr_optional_str_inj in Heq as [Hu _].
    repeat split; assumption.
  - intros (Hh & Hp & Hu). unfold __repr__. rewrite Hh, Hp, Hu. reflexivity.
Qed.

(** * How a run of the loop ends *)

Section Outcome.
Context {operation : Type}.
Implicit Types (c : Connection operation) (script : list attempt_result).

Lemma reconnect_classified script : forall c k,
  _retry_interval c = backoff_after k ->
  let r := _reconnect c script in
  sleeps (run_trace r) = map backoff_after (seq (S k) (retried_before script))
  /\ match first_decisive script with
     | None => run_outcome r = Pending /\ run_rest r = []
     | Some (Established t, rest) =>
         run_outcome r = Returned /\ run_rest r = rest
         /\ transport_of (run_self r) = Some t
     | Some (Failed e, rest) => run_outcome r = Raised e /\ run_rest r = rest
     end.
Proof.
  induction script as [|a script IH]; intros c k Hk; cbn zeta.
  - cbn [_reconnect run_trace first_decisive retried_before seq map].
    rewrite sleeps_attempt_prefix. repeat split.
  - destruct a as [t|e]; cbn [_reconnect first_decisive retried_before].
    + cbn [run_trace seq map]. rewrite sleeps_attempt_prefix. repeat split.
    + destruct (isinstance_OSError e).
      * destruct (on_failure_schedule c k Hk) as [secs ->].
        cbn [run_trace run_outcome run_rest run_self].
        specialize (IH (set_retry_interval c (backoff_after (S k))) (S k) eq_refl).
        cbn zeta in IH. destruct IH as [Hs Hend].
        split; [|exact Hend].
        rewrite !sleeps_app, sleeps_attempt_prefix, Hs. reflexivity.
      * cbn [run_trace run_outcome run_rest seq map].
        rewrite sleeps_attempt_prefix. repeat split.
Qed.

(** X14: how a run from the initial interval ends is decided by the first
    outcome that is not an [OSError] failure.  If it is a transport, the
    run returns with that transport bound; if it is another exception, the
    run raises it; if there is none, the run is still waiting.  Either way
    the outcomes after it are not consumed, and the run has slept once per
    [OSError] failure before it, along the schedule. *)
Theorem reconnect_ends_at_first_decisive_outcome c script :
  _retry_interval c = initial_interval ->
  let r := _reconnect c script in
  sleeps (run_trace r) = map backoff_after (seq 1 (retried_before script))
  /\ match first_decisive script with
     | None => run_outcome r = Pending /\ run_rest r = []
     | Some (Established t, rest) =>
         run_outcome r = Returned /\ run_rest r = rest
         /\ transport_of (run_self r) = Some t
     | Some (Failed e, rest) => run_outcome r = Raised e /\ run_rest r = rest
     end.
Proof. intros H0. exact (reconnect_classified script c 0 H0). Qed.

(** X15: the seconds in the retry message are the interval rounded down.
    At each failure on the schedule the handler stores the next interval,
    logs that interval cut to whole seconds and sleeps the full interval;
    so the message understates the wait by less than a second (the first
    one announces 0 seconds for a wait of 0.75 s). *)
Theorem retry_message_rounds_down c (k : nat) :
  _retry_interval c = backoff_after k ->
  exists secs q,
    on_failure c
    = (set_retry_interval c (backoff_after (S k)),
       Ok [Log INFO (retry_message secs); Sleep (backoff_after (S k))])
    /\ pynum_value (backoff_after (S k)) = Some q
    /\ (inject_Z secs <= q)%Q /\ (q < inject_Z secs + 1)%Q.
Proof.
  intros Hk.
  assert (Hsecs : exists secs q,
             int_of_pynum (backoff_after (S k)) = Ok secs
             /\ pynum_value (backoff_after (S k)) = Some q
             /\ (inject_Z secs <= q)%Q /\ (q < inject_Z secs + 1)%Q).
  { do 11 (destruct k as [|k];
           [eexists; eexists; split; [vm_compute; reflexivity|];
            split; [vm_compute; reflexivity|];
            split; [vm_compute; discriminate | vm_compute; reflexivity]|]).
    rewrite backoff_after_ceiling by lia.
    exists 60, (inject_Z 60). split; [reflexivity|]. split; [reflexivity|].
    split; [vm_compute; discriminate | vm_compute; reflexivity]. }
  destruct Hsecs as (secs & q & Hi & Hq & Hlo & Hhi).
  exists secs, q. split; [|split; [exact Hq | split; assumption]].
  unfold on_failure.
  rewrite (increase_retry_interval_at c _ _ Hk (next_interval_schedule k)).
  unfold _get_retry_interval. rewrite retry_interval_set, Hi. reflexivity.
Qed.

End Outcome.

Lemma reconnect_ends_at_first_decisive_outcome_witness :
  _retry_interval sample_connection = initial_interval
  /\ run_outcome
       (_reconnect sample_connection
          [Failed TimeoutError; Failed ValueError; Established 1%nat])
     = Raised ValueError
  /\ run_rest
       (_reconnect sample_connection
          [Failed TimeoutError; Failed ValueError; Established 1%nat])
     = [Established 1%nat]
  /\ sleeps
       (run_trace
          (_reconnect sample_connection
             [Failed TimeoutError; Failed ValueError; Established 1%nat]))
     = [PyFloat 0.75].
Proof.
  pose proof (reconnect_ends_at_first_decisive_outcome sample_connection
                [Failed TimeoutError; Failed ValueError; Established 1%nat]
                eq_refl) as (Hs & Ho & Hr).
  split; [reflexivity|]. split; [exact Ho|]. split; [exact Hr | exact Hs].
Defined.

Lemma retry_message_rounds_down_witness :
  _retry_interval sample_connection = backoff_after 0
  /\ exists secs q,
       on_failure sample_connection
       = (set_retry_interval sample_connection (backoff_after 1),
          Ok [Log INFO (retry_message secs); Sleep (backoff_after 1)])
       /\ pynum_value (backoff_after 1) = Some q
       /\ (inject_Z secs <= q)%Q /\ (q < inject_Z secs + 1)%Q.
Proof.
  split; [reflexivity|].
  apply (retry_message_rounds_down sample_connection 0). reflexivity.
Defined.
